(** * HelplineOS browser client: call logging, session gateway, route guards

    A shallow embedding of the client code of the call-centre console
    (frontend/src): the axios gateway of [lib/api.js], the call-logging
    page [CallLogPage], the route guards of [App.jsx], the navigation of
    [components/Layout.js], the password reset of [AdminPage] and the
    duration renderers of the list and dashboard pages.

    Conventions of the embedding:
    - a JavaScript string is the list of its UTF-16 code units ([list N]);
    - a JavaScript number that the code only ever counts, parses or
      renders as an integer is a [Z], with [JNaN] apart.  The numbers of
      the program are doubles: a [Z] stands for the double of that value,
      and [toString] and [parseInt] are those of JavaScript on the
      integers below 2^53 in absolute value ([safe_integer]), where every
      integer is a double, decimal digits print and parse exactly and the
      language leaves no choice to the implementation.  Division, the one
      operation of the pages that leaves the integers, rounds to the
      nearest double ([Math_floor_div]).  A statement about a number that
      is not bounded by construction carries the bound;
    - [localStorage] is a finite map from keys to strings;
    - an event handler is a computation in a small state-and-exception
      monad over the browser state and an append-only log of the effects
      it performs (requests, toasts, navigation).  A handler reads the
      component state of the render it was created in (its closure) and
      writes through the setters; each [await] is answered by the remote
      side, and a handler is run to completion before the next event. *)

From Stdlib Require Import ZArith NArith Lia Ascii String DecimalN DecimalFacts.
From stdpp Require Import gmap strings list.

Local Open Scope N_scope.

(* ================================================================= *)
(** ** JavaScript values, strings and the built-ins the pages use *)

Module JS.

Abbreviation jsstring := (list N).

(** Code units of an ASCII literal of the source. *)
Fixpoint str (s : string) : jsstring :=
  match s with
  | EmptyString => []
  | String a r => N_of_ascii a :: str r
  end.

Inductive jsval :=
  | JNull
  | JUndefined
  | JBool (b : bool)
  | JNum (n : Z)
  | JNaN
  | JStr (s : jsstring).

#[global] Instance jsval_eq_dec : EqDecision jsval.
Proof. solve_decision. Defined.

(** ToBoolean. *)
Definition truthy (v : jsval) : bool :=
  match v with
  | JNull | JUndefined | JNaN => false
  | JBool b => b
  | JNum n => negb (n =? 0)%Z
  | JStr s => match s with [] => false | _ => true end
  end.

(** [a || b]. *)
Definition js_or (a b : jsval) : jsval := if truthy a then a else b.

(** A value read where the code expects [string | null]. *)
Definition of_opt (o : option jsstring) : jsval :=
  match o with Some s => JStr s | None => JNull end.

(** Truthiness of a [string | null] such as a query parameter. *)
Definition nonempty (o : option jsstring) : bool := truthy (of_opt o).

(** [s || null] on a string [s]. *)
Definition str_or_null (s : jsstring) : jsval := js_or (JStr s) JNull.

(** *** Whitespace and [String.prototype.trim] *)

(** WhiteSpace and LineTerminator code units of ECMAScript. *)
Definition is_white (c : N) : bool :=
  (c =? 9) || (c =? 10) || (c =? 11) || (c =? 12) || (c =? 13) || (c =? 32)
  || (c =? 160) || (c =? 5760) || ((8192 <=? c) && (c <=? 8202))
  || (c =? 8232) || (c =? 8233) || (c =? 8239) || (c =? 8287)
  || (c =? 12288) || (c =? 65279).

Fixpoint drop_white (s : jsstring) : jsstring :=
  match s with
  | c :: r => if is_white c then drop_white r else s
  | [] => []
  end.

Definition trim (s : jsstring) : jsstring :=
  reverse (drop_white (reverse (drop_white s))).

(** *** Integers as doubles *)

(** [Number.isSafeInteger]: the integers below 2^53 in absolute value.
    Each of them is a double and no other integer is rounded to it. *)
Definition safe_integer (z : Z) : Prop := (- 2 ^ 53 < z < 2 ^ 53)%Z.

(** A number as the embedding holds it is the number the program holds. *)
Definition exact (v : jsval) : Prop :=
  match v with
  | JNum n => safe_integer n
  | _ => True
  end.

(** Nearest integer to [q + r / d] for [0 <= r < d], ties to even. *)
Definition round_half_even (q r d : Z) : Z :=
  if ((d <? 2 * r) || ((2 * r =? d) && Z.odd q))%Z then (q + 1)%Z else q.

(** The exponent [e] of the double nearest to [n / d], for integers
    [n, d > 0]: [2^52 <= n / (d * 2^e) < 2^53]. *)
Definition fdiv_exponent (n d : Z) : Z :=
  let l := (Z.log2 n - Z.log2 d)%Z in
  let below :=
    if (0 <=? l)%Z then (n <? d * 2 ^ l)%Z else (n * 2 ^ (- l) <? d)%Z in
  ((if below then l - 1 else l) - 52)%Z.

(** The double [n / d] of two integers [n, d > 0] that are doubles: its
    53-bit significand [m], rounded to nearest with ties to even, and its
    exponent [e]; the value is [m * 2^e]. *)
Definition fdiv (n d : Z) : Z * Z :=
  let e := fdiv_exponent n d in
  let m :=
    if (0 <=? e)%Z
    then round_half_even (n / (d * 2 ^ e)) (n mod (d * 2 ^ e)) (d * 2 ^ e)
    else round_half_even (n * 2 ^ (- e) / d) ((n * 2 ^ (- e)) mod d) d in
  (m, e).

(** [Math.floor(n / d)] for an integer [n] and an integer [d > 0] that
    are doubles (below the overflow of the quotient): the quotient is
    rounded to a double first, then down to an integer. *)
Definition Math_floor_div (n d : Z) : Z :=
  if (n =? 0)%Z then 0%Z
  else
    let '(m, e) := fdiv (Z.abs n) d in
    if (0 <=? e)%Z then (Z.sgn n * (m * 2 ^ e))%Z
    else if (0 <? n)%Z then (m / 2 ^ (- e))%Z
    else (- ((m + 2 ^ (- e) - 1) / 2 ^ (- e)))%Z.

(** *** [Number.prototype.toString] on integers

    The decimal digits of the integer, with a sign: what JavaScript
    prints for a [safe_integer].  (Beyond, it prints the shortest digits
    that read back as the same double, and an exponent from 1e21.) *)

Fixpoint uint_units (d : Decimal.uint) : jsstring :=
  match d with
  | Decimal.Nil => []
  | Decimal.D0 r => 48 :: uint_units r
  | Decimal.D1 r => 49 :: uint_units r
  | Decimal.D2 r => 50 :: uint_units r
  | Decimal.D3 r => 51 :: uint_units r
  | Decimal.D4 r => 52 :: uint_units r
  | Decimal.D5 r => 53 :: uint_units r
  | Decimal.D6 r => 54 :: uint_units r
  | Decimal.D7 r => 55 :: uint_units r
  | Decimal.D8 r => 56 :: uint_units r
  | Decimal.D9 r => 57 :: uint_units r
  end.

Definition N_toString (n : N) : jsstring := uint_units (N.to_uint n).

Definition toString (z : Z) : jsstring :=
  if (z <? 0)%Z then 45 :: N_toString (Z.abs_N z) else N_toString (Z.to_N z).

(** ToString, as a template literal applies it to an interpolated value. *)
Definition display (v : jsval) : jsstring :=
  match v with
  | JNull => str "null"
  | JUndefined => str "undefined"
  | JBool true => str "true"
  | JBool false => str "false"
  | JNum n => toString n
  | JNaN => str "NaN"
  | JStr s => s
  end.

(** *** [String.prototype.padStart] *)

Fixpoint cycle (fuel : nat) (pad : jsstring) : jsstring :=
  match fuel with
  | O => []
  | S f => pad ++ cycle f pad
  end.

Definition padStart (target : nat) (pad : jsstring) (s : jsstring) : jsstring :=
  let missing := (target - length s)%nat in
  take missing (cycle missing pad) ++ s.

(** *** [parseInt] with no radix argument

    The integer that the digits denote.  JavaScript returns the double
    nearest to it: the same number when it is a [safe_integer]. *)

Definition digit_val (radix c : N) : option N :=
  let v :=
    if (48 <=? c) && (c <=? 57) then Some (c - 48)
    else if (97 <=? c) && (c <=? 122) then Some (c - 87)
    else if (65 <=? c) && (c <=? 90) then Some (c - 55)
    else None in
  match v with
  | Some d => if d <? radix then Some d else None
  | None => None
  end.

(** The longest prefix of digits, accumulated most significant first;
    [None] while no digit has been read. *)
Fixpoint parse_digits (radix : N) (s : jsstring) (acc : option N) : option N :=
  match s with
  | [] => acc
  | c :: r =>
      match digit_val radix c with
      | Some d => parse_digits radix r (Some (radix * default 0 acc + d))
      | None => acc
      end
  end.

Definition parseInt (s : jsstring) : jsval :=
  let s1 := drop_white s in
  let '(neg, s2) :=
    match s1 with
    | 45 :: r => (true, r)
    | 43 :: r => (false, r)
    | _ => (false, s1)
    end in
  let '(radix, s3) :=
    match s2 with
    | 48 :: 120 :: r => (16, r)
    | 48 :: 88 :: r => (16, r)
    | _ => (10, s2)
    end in
  match parse_digits radix s3 None with
  | None => JNaN
  | Some n => JNum (if neg : bool then - Z.of_N n else Z.of_N n)%Z
  end.

(** *** Well-formed UTF-16, as [encodeURIComponent] requires it *)

Definition is_high_surrogate (c : N) : bool := (55296 <=? c) && (c <=? 56319).
Definition is_low_surrogate (c : N) : bool := (56320 <=? c) && (c <=? 57343).

(** No lone surrogate: every high surrogate is followed by a low one and
    every low surrogate follows a high one. *)
Fixpoint well_formed (s : jsstring) : bool :=
  match s with
  | [] => true
  | c :: r =>
      if is_high_surrogate c then
        match r with
        | d :: r' => is_low_surrogate d && well_formed r'
        | [] => false
        end
      else if is_low_surrogate c then false
      else well_formed r
  end.

End JS.

(* ================================================================= *)
(** ** Resources exchanged with the remote API ([lib/api.js]) *)

Module Api.
Import JS.

(** The body of "create call record", built by [handleSubmit]. *)
Record callData := {
  caller_number : jsstring;
  cd_duration : jsval;
  call_type : jsstring;
  cd_priority : jsstring;
  cd_status : jsstring;
  cd_notes : jsval;
  resolution_notes : jsval;
  contact_id : jsval
}.

(** The body of the follow-up "update contact". *)
Record contactPatch := {
  cp_name : jsval;
  cp_email : jsval;
  cp_address : jsval;
  cp_company : jsval
}.

(** The fields of a contact object that the page reads. *)
Record contact := { c_id : jsval; c_name : jsval }.

(** The typed calls of [contactsAPI], [callsAPI], [adminAPI] and
    [freepbxAPI] that the modelled pages issue.
    - [ContactsGetById id]         GET  /contacts/{id}
    - [ContactsGetByPhone phone]   GET  /contacts/by-phone/{phone}
    - [ContactsUpdate id data]     PUT  /contacts/{id}
    - [CallsCreate data params]    POST /calls, [params] the value of the
      [call_event_id] query parameter, [None] for the empty object [{}]
    - [CallsExportCSV query]       GET  /calls/export/csv?query
    - [AdminResetPassword id pw]   POST /admin/users/{id}/reset-password
    - [FreepbxMarkProcessed id]    PUT  /freepbx/call-events/{id}/mark-processed *)
Inductive call :=
  | ContactsGetById (id : jsstring)
  | ContactsGetByPhone (phone : jsstring)
  | ContactsUpdate (id : jsval) (data : contactPatch)
  | CallsCreate (data : callData) (call_event_id : option jsstring)
  | CallsExportCSV (query : list (string * jsstring))
  | AdminResetPassword (id : jsval) (new_password : jsstring)
  | FreepbxMarkProcessed (id : jsstring).

(** The fields of a JSON response body that the client reads; a field the
    server left out is [JUndefined] (or [None]). *)
Record payload := {
  p_id : jsval;
  p_name : jsval;
  p_contact_id : jsval;
  p_detail : jsval;
  p_found : jsval;
  p_contact : option contact
}.

(** What comes back on the wire for one request. *)
Inductive wire :=
  | NetworkError
  | Http (status : N) (body : payload).

(** [error.response?.status] and [error.response?.data?.detail]. *)
Record error := { err_status : option N; err_detail : jsval }.

Inductive exn :=
  | AxiosError (e : error)
  | TypeError
  | URIError.

Definition detail_of (x : exn) : jsval :=
  match x with
  | AxiosError e => err_detail e
  | TypeError => JUndefined
  | URIError => JUndefined
  end.

End Api.

(* ================================================================= *)
(** ** Handlers as computations: state, exceptions, effect log *)

Module Eff.
Import JS Api.

Inductive transport := Axios | Fetch.
Inductive toastKind := Success | Error | Info.

(** Browser-wide state touched by the gateway. *)
Record browser := {
  localStorage : gmap string jsstring;
  href : jsstring
}.

Inductive event :=
  | Sent (via : transport) (c : call) (headers : gmap string jsstring)
  | Toast (kind : toastKind) (msg : jsval)
  | ConsoleError (label : jsstring)
  | Navigate (to : jsstring)
  | Download (body : payload).

(** [page] is the component state (the [useState] cells). *)
Record world (S : Type) := World {
  page : S;
  env : browser;
  log : list event
}.
Arguments World {S}.
Arguments page {S}.
Arguments env {S}.
Arguments log {S}.

Inductive result (A : Type) :=
  | Ok (a : A)
  | Throw (x : exn).
Arguments Ok {A}.
Arguments Throw {A}.

(** The remote side answers each call; a handler runs against one such
    oracle. *)
Definition M (S A : Type) : Type :=
  (call -> wire) -> world S -> result A * world S.

Definition ret {S A} (a : A) : M S A := fun _ w => (Ok a, w).

Definition bind {S A B} (m : M S A) (k : A -> M S B) : M S B :=
  fun srv w =>
    match m srv w with
    | (Ok a, w') => k a srv w'
    | (Throw x, w') => (Throw x, w')
    end.

Definition throw {S A} (x : exn) : M S A := fun _ w => (Throw x, w).

(** [try { m } catch (x) { h x }] *)
Definition try_catch {S A} (m : M S A) (h : exn -> M S A) : M S A :=
  fun srv w =>
    match m srv w with
    | (Ok a, w') => (Ok a, w')
    | (Throw x, w') => h x srv w'
    end.

(** [try { m } finally { f }] *)
Definition finally {S A} (m : M S A) (f : M S unit) : M S A :=
  fun srv w =>
    match m srv w with
    | (r, w') =>
        match f srv w' with
        | (Ok _, w'') => (r, w'')
        | (Throw x, w'') => (Throw x, w'')
        end
    end.

Definition emit {S} (e : event) : M S unit :=
  fun _ w => (Ok tt, World (page w) (env w) (log w ++ [e])).

(** A [useState] setter. *)
Definition set {S} (f : S -> S) : M S unit :=
  fun _ w => (Ok tt, World (f (page w)) (env w) (log w)).

Definition when {S} (b : bool) (m : M S unit) : M S unit :=
  if b then m else ret tt.

Definition toast_success {S} (msg : jsval) : M S unit := emit (Toast Success msg).
Definition toast_error {S} (msg : jsval) : M S unit := emit (Toast Error msg).
Definition toast_info {S} (msg : jsval) : M S unit := emit (Toast Info msg).
Definition console_error {S} (label : string) : M S unit := emit (ConsoleError (str label)).
Definition navigate {S} (to : string) : M S unit := emit (Navigate (str to)).

Definition run {S A} (m : M S A) (srv : call -> wire) (st : S) (b : browser)
  : result A * world S :=
  m srv (World st b []).

End Eff.

(** The handlers below are written with stdpp's monad notations
    [x ← m; k] and [m ;; k]. *)
#[global] Instance M_ret {S} : MRet (Eff.M S) := fun A a => Eff.ret a.
#[global] Instance M_bind {S} : MBind (Eff.M S) := fun A B k m => Eff.bind m k.

(* ================================================================= *)
(** ** The gateway: the axios instance, its interceptors, and [fetch] *)

Module Http.
Import JS Api Eff.

(** [axios.create({ headers: { 'Content-Type': 'application/json' } })] *)
Definition default_headers : gmap string jsstring :=
  {[ "Content-Type"%string := str "application/json" ]}.

Definition getItem (b : browser) (k : string) : option jsstring :=
  localStorage b !! k.

Definition removeItem (k : string) (b : browser) : browser :=
  {| localStorage := delete k (localStorage b); href := href b |}.

Definition set_href (to : jsstring) (b : browser) : browser :=
  {| localStorage := localStorage b; href := to |}.

(** [api.interceptors.request.use]: the header is set only for a truthy
    token. *)
Definition request_interceptor (b : browser) (headers : gmap string jsstring)
  : gmap string jsstring :=
  match getItem b "token" with
  | Some token =>
      if nonempty (Some token)
      then <[ "Authorization"%string := str "Bearer " ++ token ]> headers
      else headers
  | None => headers
  end.

(** The three statements run on a 401: both items are removed and
    [window.location.href] is set to ['/login']. *)
Definition teardown (b : browser) : browser :=
  set_href (str "/login") (removeItem "user" (removeItem "token" b)).

(** [api.interceptors.response.use], rejection branch: what it does to
    the browser before re-rejecting with the same error. *)
Definition response_error_interceptor (x : exn) (b : browser) : browser :=
  match x with
  | AxiosError e =>
      match err_status e with
      | Some status => if status =? 401 then teardown b else b
      | None => b
      end
  | TypeError => b
  | URIError => b
  end.

(** axios settles a response by its default [validateStatus]. *)
Definition validateStatus (status : N) : bool :=
  (200 <=? status) && (status <? 300).

Definition settle (r : wire) : result payload :=
  match r with
  | Http status body =>
      if validateStatus status then Ok body
      else Throw (AxiosError {| err_status := Some status;
                                err_detail := p_detail body |})
  | NetworkError =>
      Throw (AxiosError {| err_status := None; err_detail := JUndefined |})
  end.

(** One request through the axios instance [api]: request interceptor,
    the exchange, then the response interceptors. *)
Definition api {S} (c : call) : M S payload :=
  fun srv w =>
    let headers := request_interceptor (env w) default_headers in
    let w1 := World (page w) (env w) (log w ++ [Sent Axios c headers]) in
    match settle (srv c) with
    | Ok response => (Ok response, w1)
    | Throw error =>
        (Throw error,
         World (page w1) (response_error_interceptor error (env w1)) (log w1))
    end.

Definition contactsAPI_getById {S} (id : jsstring) : M S payload :=
  api (ContactsGetById id).
(** [encodeURIComponent(phone)] comes first: it throws a [URIError] on a
    lone surrogate, and nothing is sent; otherwise the request goes to the
    path that ends in the escaped number, which the typed call names by
    the number itself. *)
Definition contactsAPI_getByPhone {S} (phone : jsstring) : M S payload :=
  if well_formed phone then api (ContactsGetByPhone phone) else throw URIError.
Definition contactsAPI_update {S} (id : jsval) (data : contactPatch) : M S payload :=
  api (ContactsUpdate id data).
Definition adminAPI_resetPassword {S} (id : jsval) (new_password : jsstring)
  : M S payload :=
  api (AdminResetPassword id new_password).
Definition freepbxAPI_markProcessed {S} (id : jsstring) : M S payload :=
  api (FreepbxMarkProcessed id).

(** [callEventId ? { call_event_id: callEventId } : {}] *)
Definition create_params (callEventId : option jsstring) : option jsstring :=
  if nonempty callEventId then callEventId else None.

(** [callsAPI.create(data, callEventId = null)] *)
Definition callsAPI_create {S} (data : callData) (callEventId : option jsstring)
  : M S payload :=
  let params := create_params callEventId in
  api (CallsCreate data params).

(** The template literal [`Bearer ${token}`] on a [string | null]. *)
Definition bearer (token : option jsstring) : jsstring :=
  str "Bearer " ++ default (str "null") token.

(** [callsAPI.exportCSV]: a bare [fetch], outside the axios instance; the
    promise is fulfilled with the body whatever the status. *)
Definition callsAPI_exportCSV {S} (params : list (string * jsstring))
  : M S payload :=
  fun srv w =>
    let token := getItem (env w) "token" in
    let headers : gmap string jsstring :=
      {[ "Authorization"%string := bearer token ]} in
    let c := CallsExportCSV params in
    let w1 := World (page w) (env w) (log w ++ [Sent Fetch c headers]) in
    match srv c with
    | Http _ body => (Ok body, w1)
    | NetworkError => (Throw TypeError, w1)
    end.

End Http.

(* ================================================================= *)
(** ** The call-logging page ([CallLogPage]) *)

Module CallLog.
Import JS Api Eff Http.

(** [useSearchParams]: each of the three is a string or [null]. *)
Record params := {
  contactIdParam : option jsstring;
  phoneParam : option jsstring;
  callEventIdParam : option jsstring
}.

(** The [useState] cells of the component, in declaration order.
    [contactFound] is [null], [true] or [false]. *)
Record state := State {
  isSubmitting : bool;
  isSearching : bool;
  contactFound : option bool;
  existingContact : option contact;
  isFromFreePBX : bool;
  callerNumber : jsstring;
  duration : jsstring;
  callType : jsstring;
  priority : jsstring;
  status : jsstring;
  notes : jsstring;
  resolutionNotes : jsstring;
  newContactName : jsstring;
  newContactEmail : jsstring;
  newContactAddress : jsstring;
  newContactCompany : jsstring;
  timerRunning : bool;
  timerSeconds : Z
}.

Definition initial : state :=
  State false false None None false [] [] (str "inquiry") (str "normal")
    (str "completed") [] [] [] [] [] [] false 0.

Definition setIsSubmitting (v : bool) (s : state) : state :=
  let '(State _ a2 a3 a4 a5 a6 a7 a8 a9 a10 a11 a12 a13 a14 a15 a16 a17 a18) := s in
  State v a2 a3 a4 a5 a6 a7 a8 a9 a10 a11 a12 a13 a14 a15 a16 a17 a18.
Definition setIsSearching (v : bool) (s : state) : state :=
  let '(State a1 _ a3 a4 a5 a6 a7 a8 a9 a10 a11 a12 a13 a14 a15 a16 a17 a18) := s in
  State a1 v a3 a4 a5 a6 a7 a8 a9 a10 a11 a12 a13 a14 a15 a16 a17 a18.
Definition setContactFound (v : option bool) (s : state) : state :=
  let '(State a1 a2 _ a4 a5 a6 a7 a8 a9 a10 a11 a12 a13 a14 a15 a16 a17 a18) := s in
  State a1 a2 v a4 a5 a6 a7 a8 a9 a10 a11 a12 a13 a14 a15 a16 a17 a18.
Definition setExistingContact (v : option contact) (s : state) : state :=
  let '(State a1 a2 a3 _ a5 a6 a7 a8 a9 a10 a11 a12 a13 a14 a15 a16 a17 a18) := s in
  State a1 a2 a3 v a5 a6 a7 a8 a9 a10 a11 a12 a13 a14 a15 a16 a17 a18.
Definition setIsFromFreePBX (v : bool) (s : state) : state :=
  let '(State a1 a2 a3 a4 _ a6 a7 a8 a9 a10 a11 a12 a13 a14 a15 a16 a17 a18) := s in
  State a1 a2 a3 a4 v a6 a7 a8 a9 a10 a11 a12 a13 a14 a15 a16 a17 a18.
Definition setCallerNumber (v : jsstring) (s : state) : state :=
  let '(State a1 a2 a3 a4 a5 _ a7 a8 a9 a10 a11 a12 a13 a14 a15 a16 a17 a18) := s in
  State a1 a2 a3 a4 a5 v a7 a8 a9 a10 a11 a12 a13 a14 a15 a16 a17 a18.
Definition setDuration (v : jsstring) (s : state) : state :=
  let '(State a1 a2 a3 a4 a5 a6 _ a8 a9 a10 a11 a12 a13 a14 a15 a16 a17 a18) := s in
  State a1 a2 a3 a4 a5 a6 v a8 a9 a10 a11 a12 a13 a14 a15 a16 a17 a18.
Definition setNewContactName (v : jsstring) (s : state) : state :=
  let '(State a1 a2 a3 a4 a5 a6 a7 a8 a9 a10 a11 a12 _ a14 a15 a16 a17 a18) := s in
  State a1 a2 a3 a4 a5 a6 a7 a8 a9 a10 a11 a12 v a14 a15 a16 a17 a18.
Definition setTimerRunning (v : bool) (s : state) : state :=
  let '(State a1 a2 a3 a4 a5 a6 a7 a8 a9 a10 a11 a12 a13 a14 a15 a16 _ a18) := s in
  State a1 a2 a3 a4 a5 a6 a7 a8 a9 a10 a11 a12 a13 a14 a15 a16 v a18.
(** The functional form [setTimerSeconds(prev => f(prev))]. *)
Definition setTimerSeconds (f : Z -> Z) (s : state) : state :=
  let '(State a1 a2 a3 a4 a5 a6 a7 a8 a9 a10 a11 a12 a13 a14 a15 a16 a17 a18) := s in
  State a1 a2 a3 a4 a5 a6 a7 a8 a9 a10 a11 a12 a13 a14 a15 a16 a17 (f a18).

(** [existingContact?.id] *)
Definition existingContact_id (s : state) : jsval :=
  match existingContact s with
  | Some c => c_id c
  | None => JUndefined
  end.

(** The effect [initFromParams], run on mount with the redirect
    parameters. *)
Definition initFromParams (p : params) : M state unit :=
  match phoneParam p with
  | Some phone =>
      if nonempty (Some phone) then
        set (setCallerNumber phone) ;;
        set (setIsFromFreePBX true) ;;
        match contactIdParam p with
        | Some cid =>
            if nonempty (Some cid) then
              try_catch
                (response ← contactsAPI_getById cid;
                 set (setExistingContact
                        (Some {| c_id := p_id response; c_name := p_name response |})) ;;
                 set (setContactFound (Some true)) ;;
                 toast_success
                   (JStr (str "Incoming call from "
                          ++ display (js_or (p_name response) (JStr phone)))))
                (fun error =>
                   console_error "Failed to fetch contact:" ;;
                   set (setContactFound (Some false)))
            else
              set (setContactFound (Some false)) ;;
              toast_info (JStr (str "New caller: " ++ phone))
        | None =>
            set (setContactFound (Some false)) ;;
            toast_info (JStr (str "New caller: " ++ phone))
        end ;;
        set (setTimerRunning true)
      else mret tt
  | None => mret tt
  end.

(** The interval callback: one tick of the running stopwatch. *)
Definition tick (s : state) : state :=
  if timerRunning s then setTimerSeconds (fun prev => prev + 1)%Z s else s.

Definition toggleTimer (s : state) : state :=
  if timerRunning s
  then setDuration (toString (timerSeconds s)) (setTimerRunning false s)
  else setTimerSeconds (fun _ => 0%Z) (setTimerRunning true s).

(** [onChange] of the caller-number input. *)
Definition onCallerNumberChange (v : jsstring) (s : state) : state :=
  let s1 := setCallerNumber v s in
  if negb (isFromFreePBX s)
  then setExistingContact None (setContactFound None s1)
  else s1.

(** [!s.trim()] *)
Definition blank (s : jsstring) : bool :=
  negb (nonempty (Some (trim s))).

Definition handlePhoneSearch (s : state) : M state unit :=
  if blank (callerNumber s) then
    toast_error (JStr (str "Please enter a phone number"))
  else
    set (setIsSearching true) ;;
    finally
      (try_catch
         (response ← contactsAPI_getByPhone (trim (callerNumber s));
          if truthy (p_found response) then
            set (setContactFound (Some true)) ;;
            set (setExistingContact (p_contact response)) ;;
            toast_success (JStr (str "Contact found!"))
          else
            set (setContactFound (Some false)) ;;
            set (setExistingContact None) ;;
            toast_info (JStr (str "New caller - contact will be created automatically")))
         (fun error =>
            console_error "Error searching contact:" ;;
            toast_error (JStr (str "Failed to search for contact"))))
      (set (setIsSearching false)).

(** The object literal [callData] of [handleSubmit]. *)
Definition callData_of (p : params) (s : state) : callData :=
  {| caller_number := trim (callerNumber s);
     cd_duration :=
       js_or (js_or (JNum (timerSeconds s)) (parseInt (duration s))) (JNum 0);
     call_type := callType s;
     cd_priority := priority s;
     cd_status := status s;
     cd_notes := str_or_null (trim (notes s));
     resolution_notes := str_or_null (trim (resolutionNotes s));
     contact_id :=
       js_or (js_or (existingContact_id s) (of_opt (contactIdParam p))) JNull |}.

(** [newContactName || newContactEmail || newContactAddress ||
    newContactCompany], as a condition. *)
Definition extraInfo (s : state) : bool :=
  truthy (js_or (js_or (js_or (JStr (newContactName s)) (JStr (newContactEmail s)))
                       (JStr (newContactAddress s)))
                (JStr (newContactCompany s))).

Definition contactPatch_of (s : state) : contactPatch :=
  {| cp_name := str_or_null (newContactName s);
     cp_email := str_or_null (newContactEmail s);
     cp_address := str_or_null (newContactAddress s);
     cp_company := str_or_null (newContactCompany s) |}.

(** [contactFound === false] *)
Definition notFound (s : state) : bool :=
  match contactFound s with
  | Some false => true
  | _ => false
  end.

(** [handleSubmit], after [e.preventDefault()]. *)
Definition handleSubmit (p : params) (s : state) : M state unit :=
  if blank (callerNumber s) then
    toast_error (JStr (str "Please enter a caller number"))
  else
    set (setIsSubmitting true) ;;
    finally
      (try_catch
         (callResponse ← callsAPI_create (callData_of p s) (callEventIdParam p);
          when (notFound s && extraInfo s)
            (contactsAPI_update (p_contact_id callResponse) (contactPatch_of s) ;;
             mret tt) ;;
          match callEventIdParam p with
          | Some eventId =>
              when (nonempty (Some eventId))
                (try_catch
                   (freepbxAPI_markProcessed eventId ;; mret tt)
                   (fun err =>
                      console_error "Failed to mark call event as processed:"))
          | None => mret tt
          end ;;
          toast_success (JStr (str "Call logged successfully!")) ;;
          navigate "/calls")
         (fun error =>
            console_error "Error logging call:" ;;
            toast_error (js_or (detail_of error) (JStr (str "Failed to log call")))))
      (set (setIsSubmitting false)).

(** What the render shows of the duration row and the submit button. *)
Definition timerDisplayShown (s : state) : bool :=
  timerRunning s || (0 <? timerSeconds s)%Z.
Definition manualInputShown (s : state) : bool :=
  negb (timerRunning s) && (timerSeconds s =? 0)%Z.
Definition submitDisabled (s : state) : bool :=
  isSubmitting s || timerRunning s.

(** [formatTimerDisplay]: [Math.floor(seconds / 60)] is computed in
    doubles; the two texts are those of the code when the minutes are a
    [safe_integer]. *)
Definition formatTimerDisplay (seconds : Z) : jsstring :=
  let mins := Math_floor_div seconds 60 in
  let secs := Z.rem seconds 60 in
  padStart 2 (str "0") (toString mins) ++ str ":" ++ padStart 2 (str "0") (toString secs).

End CallLog.

(* ================================================================= *)
(** ** The call list page ([CallsListPage]) and the dashboard *)

Module CallsList.
Import JS Api Eff Http.

Record state := State {
  exporting : bool;
  search : jsstring;
  typeFilter : jsstring;
  priorityFilter : jsstring;
  statusFilter : jsstring
}.

Definition setExporting (v : bool) (s : state) : state :=
  State v (search s) (typeFilter s) (priorityFilter s) (statusFilter s).

(** [if (f) params.k = f] *)
Definition add_param (k : string) (f : jsstring) (ps : list (string * jsstring))
  : list (string * jsstring) :=
  if nonempty (Some f) then ps ++ [(k, f)] else ps.

Definition export_params (s : state) : list (string * jsstring) :=
  add_param "status" (statusFilter s)
    (add_param "priority" (priorityFilter s)
       (add_param "call_type" (typeFilter s) [])).

Definition handleExport (s : state) : M state unit :=
  set (setExporting true) ;;
  finally
    (try_catch
       (blob ← callsAPI_exportCSV (export_params s);
        emit (Download blob) ;;
        toast_success (JStr (str "Export downloaded successfully")))
       (fun error =>
          console_error "Export failed:" ;;
          toast_error (JStr (str "Failed to export calls"))))
    (set (setExporting false)).

(** [formatDuration], the same function in [CallsListPage] and in
    [DashboardPage]; [mins] and [secs] are its two constants, [mins]
    computed in doubles.  The text is the one of the code when the minutes
    are a [safe_integer]. *)
Definition mins (seconds : Z) : Z := Math_floor_div seconds 60.
Definition secs (seconds : Z) : Z := Z.rem seconds 60.

Definition formatDuration (seconds : Z) : jsstring :=
  toString (mins seconds) ++ str ":" ++ padStart 2 (str "0") (toString (secs seconds)).

End CallsList.

(* ================================================================= *)
(** ** Route guards ([App.jsx]) and navigation ([Layout.js]) *)

Module App.
Import JS.

Record user := { role : jsstring; user_name : jsstring }.

(** What [useAuth] hands to the guards. *)
Record auth := { current : option user; loading : bool }.

Inductive pageId :=
  | LoginPage | RegisterPage | DashboardPage | CallLogPage
  | CallsListPage | ContactsPage | AdminPage.

Record navItem := { path : jsstring; label : jsstring }.

(** [getNavItems(role)]; [None] is the [undefined] of [user?.role]. *)
Definition getNavItems (r : option jsstring) : list navItem :=
  let items :=
    [ {| path := str "/dashboard"; label := str "Dashboard" |};
      {| path := str "/calls/new"; label := str "Log Call" |};
      {| path := str "/calls"; label := str "Call History" |};
      {| path := str "/contacts"; label := str "Contacts" |} ] in
  if bool_decide (r = Some (str "admin"))
  then items ++ [ {| path := str "/admin"; label := str "Admin" |} ]
  else items.

(** What a route element renders to. *)
Inductive rendered :=
  | Spinner
  | NavigateTo (to : jsstring)
  | InLayout (nav : list navItem) (children : pageId)
  | Bare (children : pageId).

(** [<Layout>{children}</Layout>]: the navigation is computed from the
    role of the current user. *)
Definition Layout (a : auth) (children : pageId) : rendered :=
  InLayout (getNavItems (role <$> current a)) children.

(** [Array.prototype.includes] on strings. *)
Definition includes (l : list jsstring) (x : jsstring) : bool :=
  bool_decide (x ∈ l).

Definition ProtectedRoute (a : auth) (requiredRoles : option (list jsstring))
  (children : pageId) : rendered :=
  if loading a then Spinner
  else
    match current a with
    | None => NavigateTo (str "/login")
    | Some u =>
        match requiredRoles with
        | Some roles =>
            if negb (includes roles (role u))
            then NavigateTo (str "/dashboard")
            else Layout a children
        | None => Layout a children
        end
    end.

Definition PublicRoute (a : auth) (children : pageId) : rendered :=
  if loading a then Spinner
  else
    match current a with
    | Some _ => NavigateTo (str "/dashboard")
    | None => Bare children
    end.

Inductive element :=
  | Public (children : pageId)
  | Protected (requiredRoles : option (list jsstring)) (children : pageId)
  | Redirect (to : jsstring).

(** The route table of [AppRoutes], in source order. *)
Definition AppRoutes : list (jsstring * element) :=
  [ (str "/login", Public LoginPage);
    (str "/register", Public RegisterPage);
    (str "/dashboard", Protected None DashboardPage);
    (str "/calls/new", Protected None CallLogPage);
    (str "/calls", Protected None CallsListPage);
    (str "/contacts", Protected None ContactsPage);
    (str "/contacts/new", Protected None ContactsPage);
    (str "/admin", Protected (Some [str "admin"]) AdminPage);
    (str "/admin/*", Protected (Some [str "admin"]) AdminPage);
    (str "/", Redirect (str "/dashboard"));
    (str "*", Redirect (str "/dashboard")) ].

Definition render (a : auth) (e : element) : rendered :=
  match e with
  | Public children => PublicRoute a children
  | Protected requiredRoles children => ProtectedRoute a requiredRoles children
  | Redirect to => NavigateTo to
  end.

(** The 'Admin' item is among the rendered navigation. *)
Definition showsAdmin (r : rendered) : bool :=
  match r with
  | InLayout nav _ => bool_decide (str "Admin" ∈ label <$> nav)
  | _ => false
  end.

End App.

(* ================================================================= *)
(** ** Password reset in the administration page ([AdminPage]) *)

Module Admin.
Import JS Api Eff Http.

Record userItem := { u_id : jsval; u_name : jsstring }.

(** The [useState] cells that the reset-password modal involves. *)
Record state := State {
  isEditOpen : bool;
  isDeleteOpen : bool;
  isResetPasswordOpen : bool;
  selectedUser : option userItem;
  isSubmitting : bool;
  newPassword : jsstring
}.

Definition initial : state := State false false false None false [].

Definition setIsEditOpen (v : bool) (s : state) : state :=
  State v (isDeleteOpen s) (isResetPasswordOpen s) (selectedUser s)
    (isSubmitting s) (newPassword s).
Definition setIsDeleteOpen (v : bool) (s : state) : state :=
  State (isEditOpen s) v (isResetPasswordOpen s) (selectedUser s)
    (isSubmitting s) (newPassword s).
Definition setIsResetPasswordOpen (v : bool) (s : state) : state :=
  State (isEditOpen s) (isDeleteOpen s) v (selectedUser s)
    (isSubmitting s) (newPassword s).
Definition setSelectedUser (v : option userItem) (s : state) : state :=
  State (isEditOpen s) (isDeleteOpen s) (isResetPasswordOpen s) v
    (isSubmitting s) (newPassword s).
Definition setIsSubmitting (v : bool) (s : state) : state :=
  State (isEditOpen s) (isDeleteOpen s) (isResetPasswordOpen s) (selectedUser s)
    v (newPassword s).
Definition setNewPassword (v : jsstring) (s : state) : state :=
  State (isEditOpen s) (isDeleteOpen s) (isResetPasswordOpen s) (selectedUser s)
    (isSubmitting s) v.

Definition openEditModal (u : userItem) (s : state) : state :=
  setIsEditOpen true (setSelectedUser (Some u) s).

Definition openDeleteModal (u : userItem) (s : state) : state :=
  setIsDeleteOpen true (setSelectedUser (Some u) s).

Definition openResetPasswordModal (u : userItem) (s : state) : state :=
  setIsResetPasswordOpen true (setNewPassword [] (setSelectedUser (Some u) s)).

(** [selectedUser.id]: a [TypeError] when nothing is selected. *)
Definition selectedUser_id (s : state) : M state jsval :=
  match selectedUser s with
  | Some u => mret (u_id u)
  | None => throw TypeError
  end.

Definition handleResetPassword (s : state) : M state unit :=
  if (length (newPassword s) <? 6)%nat then
    toast_error (JStr (str "Password must be at least 6 characters"))
  else
    set (setIsSubmitting true) ;;
    finally
      (try_catch
         (id ← selectedUser_id s;
          adminAPI_resetPassword id (newPassword s) ;;
          toast_success (JStr (str "Password reset successfully")) ;;
          set (setIsResetPasswordOpen false))
         (fun error =>
            toast_error (js_or (detail_of error) (JStr (str "Failed to reset password")))))
      (set (setIsSubmitting false)).

(** What the administrator can do around the reset dialog.  The password
    input, the cancel button and the confirm button exist only inside the
    open dialog, whose [onOpenChange] closes it; the confirm button is
    disabled while a request is in flight. *)
Inductive action :=
  | OpenEdit (u : userItem)
  | OpenDelete (u : userItem)
  | OpenReset (u : userItem)
  | TypePassword (v : jsstring)
  | CloseReset
  | ConfirmReset (srv : call -> wire) (b : browser).

Definition enabled (a : action) (s : state) : bool :=
  match a with
  | TypePassword _ | CloseReset => isResetPasswordOpen s
  | ConfirmReset _ _ => isResetPasswordOpen s && negb (isSubmitting s)
  | _ => true
  end.

Definition step (a : action) (s : state) : state :=
  match a with
  | OpenEdit u => openEditModal u s
  | OpenDelete u => openDeleteModal u s
  | OpenReset u => openResetPasswordModal u s
  | TypePassword v => setNewPassword v s
  | CloseReset => setIsResetPasswordOpen false s
  | ConfirmReset srv b => page (run (handleResetPassword s) srv s b).2
  end.

Inductive reachable : state -> Prop :=
  | reach_initial : reachable initial
  | reach_step a s : reachable s -> enabled a s = true -> reachable (step a s).

End Admin.

(* ================================================================= *)
(** ** Reading an effect log *)

Module Obs.
Import JS Api Eff.

(** The requests of a log, in the order they were issued. *)
Definition calls_of (l : list event) : list call :=
  omap (fun e => match e with Sent _ c _ => Some c | _ => None end) l.

Definition navigations (l : list event) : list jsstring :=
  omap (fun e => match e with Navigate to => Some to | _ => None end) l.

Definition toasts (l : list event) : list (toastKind * jsval) :=
  omap (fun e => match e with Toast k m => Some (k, m) | _ => None end) l.

Definition is_create (c : call) : bool :=
  match c with CallsCreate _ _ => true | _ => false end.
Definition is_update (c : call) : bool :=
  match c with ContactsUpdate _ _ => true | _ => false end.
Definition is_mark (c : call) : bool :=
  match c with FreepbxMarkProcessed _ => true | _ => false end.

Definition updates (l : list event) : list call := List.filter is_update (calls_of l).
Definition marks (l : list event) : list call := List.filter is_mark (calls_of l).

(** The mark-processed calls a submission owes to its entry parameters:
    one for a truthy [callEventId], none otherwise. *)
Definition owed_marks (p : CallLog.params) : list call :=
  match CallLog.callEventIdParam p with
  | Some eventId =>
      if nonempty (Some eventId) then [FreepbxMarkProcessed eventId] else []
  | None => []
  end.

(** The answer on the wire has status 401. *)
Definition unauthorized (w : wire) : bool :=
  match w with
  | Http status _ => status =? 401
  | NetworkError => false
  end.

(** The log and the final state of a run. *)
Definition log_of {S A} (r : result A * world S) : list event := log r.2.
Definition page_of {S A} (r : result A * world S) : S := page r.2.
Definition env_of {S A} (r : result A * world S) : browser := env r.2.

End Obs.

(* ================================================================= *)
(** ** Reading a rendered duration back *)

Module Display.
Import JS.

Definition is_digit (c : N) : bool := (48 <=? c) && (c <=? 57).

(** The number a string of decimal digits denotes. *)
Definition value_from (a : N) (s : jsstring) : N :=
  fold_left (fun a c => 10 * a + (c - 48)) s a.
Definition value (s : jsstring) : N := value_from 0 s.

(** The accumulator of [value_from] once the digits of [d] have been
    read, in terms of the library's conversion. *)
Definition acc_after (a : N) (d : Decimal.uint) : N :=
  match a with 0 => N.of_uint d | Npos p => Npos (Pos.of_uint_acc d p) end.

(** The text before the first [':'] and, when there is one, the text
    after it. *)
Fixpoint split_colon (s : jsstring) : jsstring * option jsstring :=
  match s with
  | [] => ([], None)
  | c :: r =>
      if c =? 58 then ([], Some r)
      else let '(a, b) := split_colon r in (c :: a, b)
  end.

(** Seconds denoted by a display of the form minutes [:] seconds. *)
Definition readDisplay (s : jsstring) : option Z :=
  match split_colon s with
  | (m, Some ss) =>
      match parseInt m, parseInt ss with
      | JNum a, JNum b => Some (a * 60 + b)%Z
      | _, _ => None
      end
  | (_, None) => None
  end.

(** The two digits of a seconds component. *)
Definition two_digits (k : Z) : jsstring :=
  [48 + Z.to_N (k / 10); 48 + Z.to_N (k mod 10)].

End Display.

(* ================================================================= *)
(** ** Concrete sessions, servers and page states used as examples *)

Module Scenario.
Import JS Api Eff Http.

(** A JSON body with none of the fields the client reads. *)
Definition empty_body : payload :=
  {| p_id := JUndefined; p_name := JUndefined; p_contact_id := JUndefined;
     p_detail := JUndefined; p_found := JUndefined; p_contact := None |}.

Definition with_detail (d : string) : payload :=
  {| p_id := JUndefined; p_name := JUndefined; p_contact_id := JUndefined;
     p_detail := JStr (str d); p_found := JUndefined; p_contact := None |}.

Definition with_contact_id (id : Z) : payload :=
  {| p_id := JUndefined; p_name := JUndefined; p_contact_id := JNum id;
     p_detail := JUndefined; p_found := JUndefined; p_contact := None |}.

(** Nobody is signed in: nothing is stored. *)
Definition signed_out : browser :=
  {| localStorage := ∅; href := str "/login" |}.

(** A session is stored and the agent is on the call list. *)
Definition signed_in : browser :=
  {| localStorage :=
       <[ "token"%string := str "abc" ]> (<[ "user"%string := str "{}" ]> ∅);
     href := str "/calls" |}.

(** The session has expired: every request is answered 401. *)
Definition srv_unauthorized : call -> wire :=
  fun _ => Http 401 (with_detail "Not authenticated").

(** Every request is answered 200 with an empty object. *)
Definition srv_ok : call -> wire := fun _ => Http 200 empty_body.

(** The call is created (contact 7 is minted) and the event is
    acknowledged, but the contact update is refused. *)
Definition srv_update_refused : call -> wire :=
  fun c =>
    match c with
    | CallsCreate _ _ => Http 201 (with_contact_id 7)
    | ContactsUpdate _ _ => Http 500 (with_detail "Database unavailable")
    | _ => Http 200 empty_body
    end.

(** The contact named by the redirect cannot be fetched; everything else
    succeeds. *)
Definition srv_contact_missing : call -> wire :=
  fun c =>
    match c with
    | ContactsGetById _ => Http 404 (with_detail "Contact not found")
    | CallsCreate _ _ => Http 201 (with_contact_id 42)
    | _ => Http 200 empty_body
    end.

(** The call is created, but the session expires before the event is
    acknowledged. *)
Definition srv_mark_unauthorized : call -> wire :=
  fun c =>
    match c with
    | FreepbxMarkProcessed _ => Http 401 (with_detail "Not authenticated")
    | CallsCreate _ _ => Http 201 (with_contact_id 7)
    | _ => Http 200 empty_body
    end.

(** Every request fails before a response arrives. *)
Definition srv_down : call -> wire := fun _ => NetworkError.

(** Redirect [?phone=%2B15559876543&contact=42&callEventId=900]. *)
Definition redirect_known : CallLog.params :=
  {| CallLog.contactIdParam := Some (str "42");
     CallLog.phoneParam := Some (str "+15559876543");
     CallLog.callEventIdParam := Some (str "900") |}.

(** Redirect [?phone=%2B15551234567&callEventId=900], no contact. *)
Definition redirect_new : CallLog.params :=
  {| CallLog.contactIdParam := None;
     CallLog.phoneParam := Some (str "+15551234567");
     CallLog.callEventIdParam := Some (str "900") |}.

(** No query string: manual entry. *)
Definition manual : CallLog.params :=
  {| CallLog.contactIdParam := None;
     CallLog.phoneParam := None;
     CallLog.callEventIdParam := None |}.

(** The page after the effect [initFromParams] has run on mount. *)
Definition mounted (p : CallLog.params) (srv : call -> wire) : CallLog.state :=
  page (run (CallLog.initFromParams p) srv CallLog.initial signed_in).2.

(** The agent lets the stopwatch run for [n] seconds and stops it. *)
Fixpoint ticks (n : nat) (s : CallLog.state) : CallLog.state :=
  match n with
  | O => s
  | S k => ticks k (CallLog.tick s)
  end.

Definition stopped_after (n : nat) (s : CallLog.state) : CallLog.state :=
  CallLog.toggleTimer (ticks n s).

(** Redirected call from an unknown number; the agent types a name for
    the new contact, stops the stopwatch after 30 seconds. *)
Definition new_caller_named : CallLog.state :=
  CallLog.setNewContactName (str "Ann")
    (stopped_after 30 (mounted redirect_new srv_ok)).

(** Redirected call whose contact 42 could not be fetched. *)
Definition known_caller_unfetched : CallLog.state :=
  stopped_after 30 (mounted redirect_known srv_contact_missing).

(** Manual entry of a number and of a duration of 125 seconds. *)
Definition typed_call : CallLog.state :=
  CallLog.setDuration (str "125")
    (CallLog.onCallerNumberChange (str "+15551234567") CallLog.initial).

(** The administrator opens the reset dialog for a user and types a
    password. *)
Definition some_user : Admin.userItem :=
  {| Admin.u_id := JNum 5; Admin.u_name := str "Cy" |}.

Definition reset_typed (pw : jsstring) : Admin.state :=
  Admin.step (Admin.TypePassword pw)
    (Admin.step (Admin.OpenReset some_user) Admin.initial).

(** The call list with no filter chosen. *)
Definition no_filters : CallsList.state :=
  CallsList.State false [] [] [] [].

(** The route guards during the initial session check. *)
Definition checking_session : App.auth :=
  {| App.current := None; App.loading := true |}.

Definition nobody : App.auth :=
  {| App.current := None; App.loading := false |}.

Definition agent_session : App.auth :=
  {| App.current := Some {| App.role := str "agent"; App.user_name := str "Al" |};
     App.loading := false |}.

Definition admin_session : App.auth :=
  {| App.current := Some {| App.role := str "admin"; App.user_name := str "Bo" |};
     App.loading := false |}.

End Scenario.

(* ================================================================= *)
(** ** The call-logging page: every state update of the component *)

Module CallLogUI.
Import JS Api Eff Http CallLog Obs.

Definition setCallType (v : jsstring) (s : state) : state :=
  let '(State a1 a2 a3 a4 a5 a6 a7 _ a9 a10 a11 a12 a13 a14 a15 a16 a17 a18) := s in
  State a1 a2 a3 a4 a5 a6 a7 v a9 a10 a11 a12 a13 a14 a15 a16 a17 a18.
Definition setPriority (v : jsstring) (s : state) : state :=
  let '(State a1 a2 a3 a4 a5 a6 a7 a8 _ a10 a11 a12 a13 a14 a15 a16 a17 a18) := s in
  State a1 a2 a3 a4 a5 a6 a7 a8 v a10 a11 a12 a13 a14 a15 a16 a17 a18.
Definition setStatus (v : jsstring) (s : state) : state :=
  let '(State a1 a2 a3 a4 a5 a6 a7 a8 a9 _ a11 a12 a13 a14 a15 a16 a17 a18) := s in
  State a1 a2 a3 a4 a5 a6 a7 a8 a9 v a11 a12 a13 a14 a15 a16 a17 a18.
Definition setNotes (v : jsstring) (s : state) : state :=
  let '(State a1 a2 a3 a4 a5 a6 a7 a8 a9 a10 _ a12 a13 a14 a15 a16 a17 a18) := s in
  State a1 a2 a3 a4 a5 a6 a7 a8 a9 a10 v a12 a13 a14 a15 a16 a17 a18.
Definition setResolutionNotes (v : jsstring) (s : state) : state :=
  let '(State a1 a2 a3 a4 a5 a6 a7 a8 a9 a10 a11 _ a13 a14 a15 a16 a17 a18) := s in
  State a1 a2 a3 a4 a5 a6 a7 a8 a9 a10 a11 v a13 a14 a15 a16 a17 a18.
Definition setNewContactEmail (v : jsstring) (s : state) : state :=
  let '(State a1 a2 a3 a4 a5 a6 a7 a8 a9 a10 a11 a12 a13 _ a15 a16 a17 a18) := s in
  State a1 a2 a3 a4 a5 a6 a7 a8 a9 a10 a11 a12 a13 v a15 a16 a17 a18.
Definition setNewContactAddress (v : jsstring) (s : state) : state :=
  let '(State a1 a2 a3 a4 a5 a6 a7 a8 a9 a10 a11 a12 a13 a14 _ a16 a17 a18) := s in
  State a1 a2 a3 a4 a5 a6 a7 a8 a9 a10 a11 a12 a13 a14 v a16 a17 a18.
Definition setNewContactCompany (v : jsstring) (s : state) : state :=
  let '(State a1 a2 a3 a4 a5 a6 a7 a8 a9 a10 a11 a12 a13 a14 a15 _ a17 a18) := s in
  State a1 a2 a3 a4 a5 a6 a7 a8 a9 a10 a11 a12 a13 a14 a15 v a17 a18.

(** The text inputs and selects whose change handler stores the new
    value and does nothing else. *)
Inductive field :=
  | CallType | Priority | Status | Notes | ResolutionNotes
  | NewContactName | NewContactEmail | NewContactAddress | NewContactCompany.

Definition setField (f : field) (v : jsstring) : state -> state :=
  match f with
  | CallType => setCallType v
  | Priority => setPriority v
  | Status => setStatus v
  | Notes => setNotes v
  | ResolutionNotes => setResolutionNotes v
  | NewContactName => setNewContactName v
  | NewContactEmail => setNewContactEmail v
  | NewContactAddress => setNewContactAddress v
  | NewContactCompany => setNewContactCompany v
  end.

(** Every call of a state setter in the component, with what it is
    given.  [setTimerSeconds] is called with [prev => prev + 1] (the
    interval) and with [0] (a restart) and nowhere else, [setIsFromFreePBX]
    with [true] only; the other setters are given a value that comes from
    the agent, the entry parameters or the remote side, any value here. *)
Inductive update :=
  | SetIsSubmitting (v : bool)
  | SetIsSearching (v : bool)
  | SetContactFound (v : option bool)
  | SetExistingContact (v : option contact)
  | SetIsFromFreePBX
  | SetCallerNumber (v : jsstring)
  | SetDuration (v : jsstring)
  | SetField (f : field) (v : jsstring)
  | SetTimerRunning (v : bool)
  | IncrementTimerSeconds
  | ResetTimerSeconds.

Definition perform (u : update) : state -> state :=
  match u with
  | SetIsSubmitting v => setIsSubmitting v
  | SetIsSearching v => setIsSearching v
  | SetContactFound v => setContactFound v
  | SetExistingContact v => setExistingContact v
  | SetIsFromFreePBX => setIsFromFreePBX true
  | SetCallerNumber v => setCallerNumber v
  | SetDuration v => setDuration v
  | SetField f v => setField f v
  | SetTimerRunning v => setTimerRunning v
  | IncrementTimerSeconds => setTimerSeconds (fun prev => prev + 1)%Z
  | ResetTimerSeconds => setTimerSeconds (fun _ => 0%Z)
  end.

(** The states the page can be in: the initial state and whatever a
    sequence of setter calls makes of it.  No assumption is made on which
    calls happen, in which order or with which values, so that the states
    between two awaits of a handler, the re-runs of the mount effect on
    a change of the entry parameters and the interleavings of handlers
    are all among them. *)
Inductive attainable : state -> Prop :=
  | attain_initial : attainable initial
  | attain_update u s : attainable s -> attainable (perform u s).

End CallLogUI.

(* ================================================================= *)
(** ** Filters of the call list ([CallsListPage]) *)

Module CallsListUI.
Import JS CallsList.

(** The [params] object that [fetchCalls] builds. *)
Definition fetch_params (s : state) : list (string * jsstring) :=
  add_param "status" (statusFilter s)
    (add_param "priority" (priorityFilter s)
       (add_param "call_type" (typeFilter s)
          (add_param "search" (search s) []))).

Definition clearFilters (s : state) : state :=
  State (exporting s) [] [] [] [].

(** [search || typeFilter || priorityFilter || statusFilter], as the
    condition it is used for. *)
Definition hasActiveFilters (s : state) : bool :=
  truthy (js_or (js_or (js_or (JStr (search s)) (JStr (typeFilter s)))
                       (JStr (priorityFilter s)))
                (JStr (statusFilter s))).

End CallsListUI.

(* ================================================================= *)
(** ** Tags of a contact ([ContactsPage]) *)

Module Tags.
Import JS.

(** [s.split(',')] *)
Fixpoint split_comma (s : jsstring) : list jsstring :=
  match s with
  | [] => [[]]
  | c :: r =>
      if c =? 44 then [] :: split_comma r
      else
        match split_comma r with
        | h :: t => (c :: h) :: t
        | [] => [[c]]
        end
  end.

(** [l.join(sep)] on an array of strings. *)
Fixpoint join (sep : jsstring) (l : list jsstring) : jsstring :=
  match l with
  | [] => []
  | [t] => t
  | t :: r => t ++ sep ++ join sep r
  end.

(** [formData.tags ? formData.tags.split(',').map(t => t.trim())
    .filter(Boolean) : []], as [handleCreate] and [handleUpdate] send it. *)
Definition parseTags (tags : jsstring) : list jsstring :=
  if nonempty (Some tags)
  then List.filter (fun t => truthy (JStr t)) (map trim (split_comma tags))
  else [].

(** [contact.tags?.join(', ') || ''], as [openEditModal] fills the form;
    [None] is a contact without a [tags] field. *)
Definition tagsField (tags : option (list jsstring)) : jsstring :=
  match tags with
  | Some l =>
      match js_or (JStr (join (str ", ") l)) (JStr []) with
      | JStr s => s
      | _ => []
      end
  | None => []
  end.

(** A tag as the form can express it: not empty, no comma, no white
    space at either end. *)
Definition clean (t : jsstring) : Prop :=
  t <> [] /\ (44 ∉ t) /\ trim t = t.

End Tags.

(* ================================================================= *)
(** ** Signing out ([AuthContext], [Layout]) and following redirects *)

Module Session.
Import JS Api Eff Http App.

Definition setUser (v : option user) (a : auth) : auth :=
  {| current := v; loading := loading a |}.

(** A statement that acts on [localStorage]. *)
Definition storage {S} (f : browser -> browser) : M S unit :=
  fun _ w => (Ok tt, World (page w) (f (env w)) (log w)).

(** [logout] of the [AuthProvider]. *)
Definition logout : M auth unit :=
  storage (removeItem "token") ;;
  storage (removeItem "user") ;;
  set (setUser None).

(** [handleLogout] of the layout. *)
Definition handleLogout : M auth unit :=
  logout ;;
  navigate "/login".

(** The route of the table for a literal path such as the target of a
    redirect. *)
Definition route_at (to : jsstring) : option element :=
  snd <$> List.find (fun r => bool_decide (r.1 = to)) AppRoutes.

(** Render an element and follow at most [hops] redirects through the
    table. *)
Fixpoint follow (hops : nat) (a : auth) (e : element) : rendered :=
  match render a e with
  | NavigateTo to =>
      match hops with
      | O => NavigateTo to
      | S h =>
          match route_at to with
          | Some e' => follow h a e'
          | None => NavigateTo to
          end
      end
  | r => r
  end.

End Session.

(* ================================================================= *)
(** ** Further examples *)

Module Scenario2.
Import JS Api Eff Http Scenario.

(** Contact 42 exists and is returned by every contact request. *)
Definition contact_42 : payload :=
  {| p_id := JNum 42; p_name := JStr (str "Ann"); p_contact_id := JNum 42;
     p_detail := JUndefined; p_found := JBool true;
     p_contact := Some {| c_id := JNum 42; c_name := JStr (str "Ann") |} |}.

Definition srv_contact_42 : call -> wire := fun _ => Http 200 contact_42.

(** Redirected call from a known contact, stopped after 30 seconds. *)
Definition known_caller : CallLog.state :=
  stopped_after 30 (mounted redirect_known srv_contact_42).

(** Some page-specific data kept in storage beside the session. *)
Definition signed_in_with_theme : browser :=
  {| localStorage := <[ "theme"%string := str "dark" ]> (localStorage signed_in);
     href := str "/calls" |}.

(** The call list filtered by a search text and a priority. *)
Definition searched_urgent : CallsList.state :=
  CallsList.State false (str "smith") [] (str "urgent") [].

End Scenario2.

(* ================================================================= *)
(** * Properties *)

(** ** Strings, digits and [parseInt] *)

Module JSFacts.
Import JS Display.

Lemma drop_white_head s :
  drop_white s = [] \/ exists c r, drop_white s = c :: r /\ is_white c = false.
Proof.
  induction s as [|c r IH]; simpl; [by left|].
  destruct (is_white c) eqn:Hc; [exact IH|]. right. by exists c, r.
Qed.

Lemma drop_white_nil s : drop_white s = [] <-> forallb is_white s = true.
Proof.
  induction s as [|c r IH]; simpl; [done|].
  destruct (is_white c); simpl; [exact IH|]. split; discriminate.
Qed.

Lemma forallb_reverse (f : N -> bool) s : forallb f (reverse s) = forallb f s.
Proof.
  induction s as [|c r IH]; [done|].
  rewrite reverse_cons, forallb_app, IH. simpl. rewrite andb_true_r. apply andb_comm.
Qed.

Lemma trim_nil s : trim s = [] <-> forallb is_white s = true.
Proof.
  unfold trim. split.
  - intros H. apply (f_equal reverse) in H. rewrite reverse_involutive in H.
    simpl in H. apply drop_white_nil in H. rewrite forallb_reverse in H.
    destruct (drop_white_head s) as [E|(c & r & E & Hc)].
    + by apply drop_white_nil.
    + rewrite E in H. simpl in H. rewrite Hc in H. discriminate.
  - intros H. apply drop_white_nil in H. by rewrite H.
Qed.

Lemma blank_spec s : CallLog.blank s = forallb is_white s.
Proof.
  unfold CallLog.blank, nonempty, of_opt, truthy.
  destruct (forallb is_white s) eqn:H.
  - apply trim_nil in H. by rewrite H.
  - destruct (trim s) eqn:E; [|done].
    apply trim_nil in E. congruence.
Qed.

(** Decimal digits. *)
Lemma uint_units_digits d : forallb is_digit (uint_units d) = true.
Proof. induction d; simpl; auto. Qed.


Lemma value_from_cons a c s :
  value_from a (c :: s) = value_from (10 * a + (c - 48)) s.
Proof. reflexivity. Qed.

Lemma value_from_units d : forall a rest,
  value_from a (uint_units d ++ rest) = value_from (acc_after a d) rest.
Proof.
  induction d; intros a rest; simpl uint_units; simpl app;
    [by destruct a | rewrite value_from_cons, IHd; f_equal;
                     destruct a; simpl; try reflexivity;
                     try (f_equal; lia); do 2 f_equal; lia ..].
Qed.

Lemma value_N_toString n : value (N_toString n) = n.
Proof.
  unfold value, N_toString.
  rewrite <- (app_nil_r (uint_units _)), value_from_units. simpl.
  apply DecimalN.Unsigned.of_to.
Qed.

Lemma N_toString_nonempty n : N_toString n <> [].
Proof.
  unfold N_toString. destruct n as [|p]; [discriminate|].
  simpl. pose proof (DecimalPos.Unsigned.to_uint_nonnil p) as H.
  destruct (Pos.to_uint p); try discriminate. congruence.
Qed.

Lemma N_toString_digits n : forallb is_digit (N_toString n) = true.
Proof. apply uint_units_digits. Qed.

Lemma is_digit_cases c : is_digit c = true ->
  c = 48 \/ c = 49 \/ c = 50 \/ c = 51 \/ c = 52 \/ c = 53 \/ c = 54 \/ c = 55 \/ c = 56 \/ c = 57.
Proof. unfold is_digit. intros H. apply andb_true_iff in H as [H1 H2].
  apply N.leb_le in H1, H2. lia. Qed.

Lemma digit_val_digit c : is_digit c = true -> digit_val 10 c = Some (c - 48).
Proof.
  intros H. unfold digit_val. unfold is_digit in H. rewrite H.
  apply andb_true_iff in H as [H1 H2]. apply N.leb_le in H1, H2.
  destruct (c - 48 <? 10) eqn:E; [done|]. apply N.ltb_ge in E. lia.
Qed.

Lemma parse_digits_all s : forall acc, forallb is_digit s = true -> s <> [] ->
  parse_digits 10 s acc = Some (value_from (default 0 acc) s).
Proof.
  induction s as [|c r IH]; intros acc Hd Hne; [done|].
  simpl in Hd. apply andb_true_iff in Hd as [Hc Hr].
  simpl. rewrite (digit_val_digit _ Hc).
  destruct r as [|c2 r2]; [reflexivity|].
  rewrite IH; [|done|done]. reflexivity.
Qed.

Lemma parseInt_digits s : forallb is_digit s = true -> s <> [] ->
  parseInt s = JNum (Z.of_N (value s)).
Proof.
  intros Hd Hne. pose proof (parse_digits_all s None Hd Hne) as Hp.
  destruct s as [|c r]; [done|]. clear Hne.
  pose proof Hd as Hd'. simpl in Hd'. apply andb_true_iff in Hd' as [Hc Hr].
  unfold parseInt.
  assert (Hw : drop_white (c :: r) = c :: r).
  { apply is_digit_cases in Hc. simpl.
    repeat (destruct Hc as [-> | Hc]; [reflexivity|]). by subst. }
  rewrite Hw.
  assert (Hs : match c :: r with 45 :: r0 => (true, r0) | 43 :: r0 => (false, r0) | _ => (false, c :: r) end = (false, c :: r)).
  { apply is_digit_cases in Hc.
    repeat (destruct Hc as [-> | Hc]; [reflexivity|]). by subst. }
  rewrite Hs.
  assert (Hx : match c :: r with 48 :: 120 :: r0 => (16, r0) | 48 :: 88 :: r0 => (16, r0) | _ => (10, c :: r) end = (10, c :: r)).
  { destruct r as [|c2 r2].
    - apply is_digit_cases in Hc.
      repeat (destruct Hc as [-> | Hc]; [reflexivity|]). by subst.
    - simpl in Hr. apply andb_true_iff in Hr as [Hc2 _].
      apply is_digit_cases in Hc, Hc2.
      repeat (destruct Hc as [-> | Hc]; [ repeat (destruct Hc2 as [-> | Hc2]; [reflexivity|]); by subst |]).
      subst. repeat (destruct Hc2 as [-> | Hc2]; [reflexivity|]); by subst. }
  rewrite Hx, Hp. reflexivity.
Qed.


Lemma toString_nonneg z : (0 <= z)%Z -> toString z = N_toString (Z.to_N z).
Proof. intros H. unfold toString. destruct (Z.ltb_spec z 0); [lia | done]. Qed.

Lemma parseInt_toString z : (0 <= z)%Z -> parseInt (toString z) = JNum z.
Proof.
  intros H. rewrite toString_nonneg by done.
  rewrite parseInt_digits, value_N_toString, Z2N.id; auto using N_toString_digits, N_toString_nonempty.
Qed.

Lemma split_colon_digits ds r :
  forallb is_digit ds = true -> split_colon (ds ++ 58 :: r) = (ds, Some r).
Proof.
  induction ds as [|c ds IH]; simpl; [done|].
  intros H. apply andb_true_iff in H as [Hc Hds]. rewrite (IH Hds).
  destruct (N.eqb_spec c 58) as [->|]; [discriminate | done].
Qed.

Lemma padStart_long pad s n : (n <= length s)%nat -> padStart n pad s = s.
Proof. intros H. unfold padStart. by replace (n - length s)%nat with 0%nat by lia. Qed.

Lemma N_toString_two n : 10 <= n -> (2 <= length (N_toString n))%nat.
Proof.
  intros H. pose proof (value_N_toString n) as Hv.
  pose proof (N_toString_digits n) as Hd. pose proof (N_toString_nonempty n) as Hne.
  destruct (N_toString n) as [|c [|c2 r]]; [done | | simpl; lia].
  simpl in Hd. rewrite andb_true_r in Hd. unfold is_digit in Hd.
  apply andb_true_iff in Hd as [H1 H2]. apply N.leb_le in H1, H2.
  unfold value, value_from in Hv. simpl in Hv. lia.
Qed.

(** Every number below [bound] passes a check that was run on each of
    them. *)
Lemma below_checked (P : Z -> bool) (bound : nat) :
  forallb (fun i => P (Z.of_nat i)) (seq 0 bound) = true ->
  forall k, (0 <= k < Z.of_nat bound)%Z -> P k = true.
Proof.
  intros H k Hk. rewrite forallb_forall in H.
  specialize (H (Z.to_nat k)). rewrite Z2Nat.id in H by lia.
  apply H, in_seq. lia.
Qed.

Lemma seconds_padded k :
  (0 <= k < 60)%Z -> padStart 2 (str "0") (toString k) = two_digits k.
Proof.
  intros Hk.
  pose (P := fun k => bool_decide (padStart 2 (str "0") (toString k) = two_digits k)).
  assert (Hall : forallb (fun i => P (Z.of_nat i)) (seq 0 60) = true)
    by (vm_compute; reflexivity).
  exact (bool_decide_eq_true_1 _ (below_checked P 60 Hall k Hk)).
Qed.

Lemma seconds_read k : (0 <= k < 60)%Z -> parseInt (two_digits k) = JNum k.
Proof.
  intros Hk.
  pose (P := fun k => bool_decide (parseInt (two_digits k) = JNum k)).
  assert (Hall : forallb (fun i => P (Z.of_nat i)) (seq 0 60) = true)
    by (vm_compute; reflexivity).
  exact (bool_decide_eq_true_1 _ (below_checked P 60 Hall k Hk)).
Qed.

Lemma minutes_padded m : (0 <= m)%Z ->
  padStart 2 (str "0") (toString m) =
  if (m <? 10)%Z then 48 :: toString m else toString m.
Proof.
  intros Hm. destruct (Z.ltb_spec m 10) as [Hlt|Hge].
  - pose (P := fun m => bool_decide (padStart 2 (str "0") (toString m) = 48 :: toString m)).
    assert (Hall : forallb (fun i => P (Z.of_nat i)) (seq 0 10) = true)
      by (vm_compute; reflexivity).
    exact (bool_decide_eq_true_1 _ (below_checked P 10 Hall m (conj Hm Hlt))).
  - apply padStart_long. rewrite toString_nonneg by done.
    apply N_toString_two. lia.
Qed.

Lemma parseInt_padded_minutes m : (0 <= m)%Z ->
  parseInt (padStart 2 (str "0") (toString m)) = JNum m.
Proof.
  intros Hm. rewrite minutes_padded by done.
  destruct (m <? 10)%Z; [|by apply parseInt_toString].
  rewrite toString_nonneg by done.
  rewrite parseInt_digits.
  - unfold value. rewrite value_from_cons. simpl (10 * 0 + _).
    fold (value (N_toString (Z.to_N m))). by rewrite value_N_toString, Z2N.id.
  - simpl. apply N_toString_digits.
  - done.
Qed.

Lemma padded_minutes_digits m : (0 <= m)%Z ->
  forallb is_digit (padStart 2 (str "0") (toString m)) = true.
Proof.
  intros Hm. rewrite minutes_padded, toString_nonneg by done.
  destruct (m <? 10)%Z; simpl; apply N_toString_digits.
Qed.

(** *** Division in doubles *)

Lemma round_half_even_cases q r d :
  round_half_even q r d = q
  \/ (round_half_even q r d = (q + 1)%Z /\ (d <= 2 * r)%Z).
Proof.
  unfold round_half_even.
  destruct (Z.ltb_spec d (2 * r)); cbn [orb]; [right; lia|].
  destruct (Z.eqb_spec (2 * r) d); cbn [andb]; [|by left].
  destruct (Z.odd q); [right; lia | by left].
Qed.

(** Below 2^53 seconds the quotient by 60 is below 2^48: its double has
    at least five binary places. *)
Lemma fdiv_exponent_safe n : (0 < n < 2 ^ 53)%Z -> (fdiv_exponent n 60 <= -5)%Z.
Proof.
  intros Hn. unfold fdiv_exponent.
  assert (Hl : (Z.log2 n < 53)%Z) by (apply Z.log2_lt_pow2; lia).
  change (Z.log2 60) with 5%Z.
  destruct (0 <=? _)%Z; destruct (_ <? _)%Z; lia.
Qed.

(** With five binary places the rounding error is at most 1/64, less
    than the 1/60 that separates a quotient by 60 from the next integer:
    the rounded quotient has the integer part of the exact one. *)
Lemma Math_floor_div_safe n :
  (0 <= n < 2 ^ 53)%Z -> Math_floor_div n 60 = (n / 60)%Z.
Proof.
  intros Hn. unfold Math_floor_div.
  destruct (Z.eqb_spec n 0) as [->|Hne]; [done|].
  rewrite Z.abs_eq by lia. unfold fdiv.
  pose proof (fdiv_exponent_safe n ltac:(lia)) as He.
  set (e := fdiv_exponent n 60) in *.
  destruct (Z.leb_spec 0 e); [lia|].
  destruct (Z.ltb_spec 0 n); [|lia].
  assert (HP : (32 <= 2 ^ (- e))%Z).
  { change 32%Z with (2 ^ 5)%Z. apply Z.pow_le_mono_r; lia. }
  set (P := (2 ^ (- e))%Z) in *.
  pose proof (Z.div_mod (n * P) 60 ltac:(lia)) as Hq.
  pose proof (Z.mod_pos_bound (n * P) 60 ltac:(lia)) as Hr.
  pose proof (Z.div_mod n 60 ltac:(lia)) as HQ.
  pose proof (Z.mod_pos_bound n 60 ltac:(lia)) as HR.
  set (q := (n * P / 60)%Z) in *. set (r := ((n * P) mod 60)%Z) in *.
  set (Q := (n / 60)%Z) in *. set (R := (n mod 60)%Z) in *.
  assert (HRP : (R * P <= 59 * P)%Z) by nia.
  assert (HN : (n * P = 60 * (Q * P) + R * P)%Z) by nia.
  symmetry. apply Z.div_unique_pos with (r := (round_half_even q r 60 - Q * P)%Z).
  all: destruct (round_half_even_cases q r 60) as [->|[-> Hup]]; nia.
Qed.

End JSFacts.

(** ** Rendering a duration (C10) *)

Module DurationFacts.
Import JS Display JSFacts.
Import CallLog CallsList.

(** C10 (as amended).  For every non-negative integer number of seconds
    [n] below 2^53, with [m = n div 60] and [s = n mod 60]:
    [formatDuration] renders the decimal digits of [m], a colon and the two
    digits of [s]; [formatTimerDisplay] renders the same with [m] padded to
    at least two digits; [s] is below 60 and [m * 60 + s = n]; reading a
    rendering back gives [n]; and each renderer is injective on the
    non-negative integers below 2^53. *)
Theorem duration_display_roundtrip (n : Z) :
  (0 <= n < 2 ^ 53)%Z ->
  let m := (n / 60)%Z in
  let s := (n mod 60)%Z in
  formatDuration n = toString m ++ str ":" ++ two_digits s
  /\ formatTimerDisplay n =
       (if (m <? 10)%Z then 48 :: toString m else toString m)
       ++ str ":" ++ two_digits s
  /\ length (two_digits s) = 2%nat
  /\ (0 <= s < 60)%Z
  /\ (m * 60 + s = n)%Z
  /\ readDisplay (formatDuration n) = Some n
  /\ readDisplay (formatTimerDisplay n) = Some n
  /\ (forall n', (0 <= n' < 2 ^ 53)%Z ->
        formatDuration n' = formatDuration n -> n' = n)
  /\ (forall n', (0 <= n' < 2 ^ 53)%Z ->
        formatTimerDisplay n' = formatTimerDisplay n -> n' = n).
Proof.
  intros Hn m s.
  assert (Hm : (0 <= m)%Z) by (apply Z.div_pos; lia).
  assert (Hs : (0 <= s < 60)%Z) by (apply Z.mod_pos_bound; lia).
  assert (Hsum : (m * 60 + s = n)%Z).
  { subst m s. pose proof (Z.div_mod n 60). lia. }
  assert (Hfd : forall k, (0 <= k < 2 ^ 53)%Z ->
            formatDuration k = toString (k / 60) ++ str ":" ++ two_digits (k mod 60)).
  { intros k Hk. unfold formatDuration, mins, secs.
    rewrite Math_floor_div_safe by done.
    rewrite Z.rem_mod_nonneg by lia.
    rewrite (seconds_padded (k mod 60)) by (apply Z.mod_pos_bound; lia). done. }
  assert (Hft : forall k, (0 <= k < 2 ^ 53)%Z ->
            formatTimerDisplay k =
            padStart 2 (str "0") (toString (k / 60)) ++ str ":" ++ two_digits (k mod 60)).
  { intros k Hk. unfold formatTimerDisplay.
    rewrite Math_floor_div_safe by done.
    rewrite Z.rem_mod_nonneg by lia.
    rewrite (seconds_padded (k mod 60)) by (apply Z.mod_pos_bound; lia). done. }
  assert (Hrd : forall k, (0 <= k < 2 ^ 53)%Z ->
            readDisplay (formatDuration k) = Some k).
  { intros k Hk. rewrite Hfd by done. unfold readDisplay.
    assert (Hq : (0 <= k / 60)%Z) by (apply Z.div_pos; lia).
    change (str ":" ++ ?x) with (58 :: x).
    rewrite split_colon_digits
      by (rewrite toString_nonneg by done; apply N_toString_digits).
    rewrite parseInt_toString by done.
    rewrite seconds_read by (apply Z.mod_pos_bound; lia).
    f_equal. pose proof (Z.div_mod k 60). lia. }
  assert (Hrt : forall k, (0 <= k < 2 ^ 53)%Z ->
            readDisplay (formatTimerDisplay k) = Some k).
  { intros k Hk. rewrite Hft by done. unfold readDisplay.
    assert (Hq : (0 <= k / 60)%Z) by (apply Z.div_pos; lia).
    change (str ":" ++ ?x) with (58 :: x).
    rewrite split_colon_digits by (by apply padded_minutes_digits).
    rewrite parseInt_padded_minutes by done.
    rewrite seconds_read by (apply Z.mod_pos_bound; lia).
    f_equal. pose proof (Z.div_mod k 60). lia. }
  repeat split; try lia.
  - by apply Hfd.
  - rewrite Hft by done. by rewrite minutes_padded.
  - by apply Hrd.
  - by apply Hrt.
  - intros n' Hn' E. apply (f_equal readDisplay) in E.
    rewrite !Hrd in E by done. congruence.
  - intros n' Hn' E. apply (f_equal readDisplay) in E.
    rewrite !Hrt in E by done. congruence.
Qed.

(** 125 seconds render as [2:05] on the list and [02:05] on the timer. *)
Lemma duration_display_roundtrip_125 :
  formatDuration 125 = str "2:05"
  /\ formatTimerDisplay 125 = str "02:05"
  /\ readDisplay (str "2:05") = Some 125%Z.
Proof.
  destruct (duration_display_roundtrip 125 ltac:(lia)) as (H1 & H2 & _ & _ & _ & H3 & _).
  split; [exact H1 | split; [exact H2 | exact H3]].
Defined.

(** C10 as stated fails: the seconds are a double and so is the quotient
    by 60.  [2^60 + 768] is an integer that a double holds (its
    significand [2^52 + 3] has 53 bits); its quotient by 60 lies between
    two doubles that are 4 apart and is rounded to the lower one before
    [Math.floor], so the minutes of both renderers are one less than
    [n div 60] and [M * 60 + SS] is not [n]. *)
Lemma large_duration_minutes :
  let n := (2 ^ 60 + 768)%Z in
  (0 <= n)%Z
  /\ n = ((2 ^ 52 + 3) * 2 ^ 8)%Z
  /\ (2 ^ 52 <= 2 ^ 52 + 3 < 2 ^ 53)%Z
  /\ mins n = 19215358410114128%Z
  /\ (n / 60)%Z = 19215358410114129%Z
  /\ mins n <> (n / 60)%Z
  /\ (mins n * 60 + secs n)%Z <> n.
Proof. vm_compute. repeat split; discriminate. Qed.

End DurationFacts.

(** ** Running a handler symbolically *)

Module Exec.
Import JS Api Eff Http Obs.

(** Unfold the monad and the gateway down to the first undecided branch. *)
Ltac exec :=
  cbv beta iota zeta delta
    [run log_of page_of env_of finally try_catch mbind M_bind bind mret M_ret ret
     throw set when emit toast_success toast_error toast_info console_error
     navigate api callsAPI_create contactsAPI_update freepbxAPI_markProcessed
     contactsAPI_getById contactsAPI_getByPhone adminAPI_resetPassword
     callsAPI_exportCSV fst snd page env log];
  cbn [app].

(** Decide the next response of the remote side. *)
Ltac on_response :=
  match goal with
  | |- context [settle (?srv ?c)] =>
      let E := fresh "Hresp" in destruct (settle (srv c)) eqn:E; exec
  end.

Lemma settle_ok (srv : call -> wire) c status body :
  srv c = Http status body -> validateStatus status = true ->
  settle (srv c) = Ok body.
Proof. intros -> H. unfold settle. by rewrite H. Qed.

Lemma settle_401 (srv : call -> wire) c body :
  srv c = Http 401 body ->
  settle (srv c) =
  Throw (AxiosError {| err_status := Some 401; err_detail := p_detail body |}).
Proof. by intros ->. Qed.

(** What the response interceptors do to the browser, by the answer. *)
Lemma settle_effect (w : wire) (b : browser) :
  match settle w with
  | Ok _ => b
  | Throw x => response_error_interceptor x b
  end = if unauthorized w then teardown b else b.
Proof.
  destruct w as [|status body]; simpl; [done|].
  destruct (validateStatus status) eqn:Hv; simpl; [|done].
  unfold validateStatus in Hv. apply andb_true_iff in Hv as [_ Hlt].
  apply N.ltb_lt in Hlt. destruct (N.eqb_spec status 401); [lia | done].
Qed.

End Exec.

Module GatewayFacts.
Import JS Api Eff Http Obs Exec Scenario.

Lemma authorization_header b :
  request_interceptor b default_headers !! "Authorization"%string =
  match getItem b "token" with
  | Some token => if nonempty (Some token) then Some (str "Bearer " ++ token) else None
  | None => None
  end.
Proof.
  unfold request_interceptor.
  destruct (getItem b "token") as [t|]; [destruct (nonempty (Some t))|].
  - apply lookup_insert_eq.
  - done.
  - done.
Qed.

Lemma teardown_storage b :
  getItem (teardown b) "token" = None
  /\ getItem (teardown b) "user" = None
  /\ href (teardown b) = str "/login".
Proof.
  unfold getItem, teardown, set_href, removeItem. simpl. split; [|split; [|done]].
  - rewrite lookup_delete_ne by done. apply lookup_delete_eq.
  - apply lookup_delete_eq.
Qed.

(** C2 (as amended).  Every request issued through the axios client,
    whatever the endpoint and the page, carries [Authorization: Bearer
    <token>] when a non-empty token is stored and no credential otherwise;
    when the answer has status 401 the token and the user are removed
    from storage and the browser is sent to [/login], and any other answer
    leaves the browser state alone.  The CSV export request is sent by
    [fetch], outside the client, with [Authorization: Bearer <token>]
    built from the stored token. *)
Theorem gateway_credentials_and_401 {S} (c : call) (srv : call -> wire)
    (st : S) (b : browser) :
  let r := run (api c) srv st b in
  (exists headers,
      log_of r = [Sent Axios c headers]
      /\ headers !! "Authorization"%string =
         match getItem b "token" with
         | Some token =>
             if nonempty (Some token) then Some (str "Bearer " ++ token) else None
         | None => None
         end)
  /\ env_of r = (if unauthorized (srv c) then teardown b else b)
  /\ (getItem (teardown b) "token" = None
      /\ getItem (teardown b) "user" = None
      /\ href (teardown b) = str "/login")
  /\ (forall query token, getItem b "token" = Some token ->
        exists headers,
          log_of (run (callsAPI_exportCSV query) srv st b)
          = [Sent Fetch (CallsExportCSV query) headers]
          /\ headers !! "Authorization"%string = Some (str "Bearer " ++ token)).
Proof.
  intros r. subst r. split; [|split; [|split]].
  - exists (request_interceptor b default_headers). split.
    + exec. by destruct (settle (srv c)).
    + apply authorization_header.
  - exec. rewrite <- settle_effect. by destruct (settle (srv c)).
  - apply teardown_storage.
  - intros query token Ht. eexists. split.
    + exec. by destruct (srv (CallsExportCSV query)).
    + unfold bearer. rewrite Ht. apply lookup_singleton_eq.
Qed.

Lemma gateway_credentials_and_401_witness :
  exists headers,
    log_of (run (callsAPI_exportCSV []) srv_ok CallLog.initial signed_in)
    = [Sent Fetch (CallsExportCSV []) headers]
    /\ headers !! "Authorization"%string = Some (str "Bearer abc").
Proof.
  apply (proj2 (proj2 (proj2 (gateway_credentials_and_401
                                (FreepbxMarkProcessed (str "900"))
                                srv_ok CallLog.initial signed_in)))
           [] (str "abc")).
  vm_compute. reflexivity.
Defined.

(** C2 as stated fails twice.  With nothing stored (as when the login
    request itself is sent) a request through the client carries no
    credential.  And the CSV export bypasses the client: answered 401, it
    leaves the stored session and the location untouched and the page
    reports a successful download. *)
Lemma export_bypasses_401_teardown :
  (exists headers,
      log_of (run (api (ContactsGetByPhone (str "+15551234567")))
                srv_ok CallLog.initial signed_out)
      = [Sent Axios (ContactsGetByPhone (str "+15551234567")) headers]
      /\ headers !! "Authorization"%string = None)
  /\ srv_unauthorized (CallsExportCSV (CallsList.export_params no_filters))
     = Http 401 (with_detail "Not authenticated")
  /\ let r := run (CallsList.handleExport no_filters) srv_unauthorized
                no_filters signed_in in
     calls_of (log_of r) = [CallsExportCSV []]
     /\ getItem (env_of r) "token" = Some (str "abc")
     /\ getItem (env_of r) "user" = Some (str "{}")
     /\ href (env_of r) = str "/calls"
     /\ toasts (log_of r) = [(Success, JStr (str "Export downloaded successfully"))].
Proof.
  split; [|split; [reflexivity|]].
  - eexists. split; [reflexivity|]. vm_compute. reflexivity.
  - repeat split; vm_compute; reflexivity.
Qed.

End GatewayFacts.

Module SubmitFacts.
Import JS Api Eff Http CallLog Obs Exec JSFacts Scenario.

Lemma submit_blank p s srv b :
  blank (callerNumber s) = true ->
  run (handleSubmit p s) srv s b
  = (Ok tt, World s b [Toast Error (JStr (str "Please enter a caller number"))]).
Proof. intros H. unfold handleSubmit. rewrite H. reflexivity. Qed.

Lemma submit_create_fails p s srv b x :
  blank (callerNumber s) = false ->
  settle (srv (CallsCreate (callData_of p s) (create_params (callEventIdParam p)))) = Throw x ->
  let l := log_of (run (handleSubmit p s) srv s b) in
  calls_of l = [CallsCreate (callData_of p s) (create_params (callEventIdParam p))]
  /\ navigations l = []
  /\ toasts l = [(Error, js_or (detail_of x) (JStr (str "Failed to log call")))].
Proof.
  intros Hb Hc. unfold handleSubmit. rewrite Hb. exec. rewrite Hc. exec. done.
Qed.

Lemma submit_created p s srv b r :
  blank (callerNumber s) = false ->
  settle (srv (CallsCreate (callData_of p s) (create_params (callEventIdParam p)))) = Ok r ->
  let l := log_of (run (handleSubmit p s) srv s b) in
  let update := ContactsUpdate (p_contact_id r) (contactPatch_of s) in
  let wanted := notFound s && extraInfo s in
  ((wanted = false \/ exists r', settle (srv update) = Ok r') ->
     navigations l = [str "/calls"]
     /\ toasts l = [(Success, JStr (str "Call logged successfully!"))]
     /\ calls_of l =
        CallsCreate (callData_of p s) (create_params (callEventIdParam p))
          :: (if wanted then [update] else []) ++ owed_marks p)
  /\ (forall x, wanted = true -> settle (srv update) = Throw x ->
     navigations l = []
     /\ toasts l = [(Error, js_or (detail_of x) (JStr (str "Failed to log call")))]
     /\ calls_of l =
        [CallsCreate (callData_of p s) (create_params (callEventIdParam p)); update]).
Proof.
  intros Hb Hc l update wanted. subst l update wanted. unfold owed_marks.
  unfold handleSubmit. rewrite Hb. exec. rewrite Hc. exec.
  destruct (notFound s && extraInfo s) eqn:Hw; exec.
  - split.
    + intros [?|[r' Hu]]; [done|]. rewrite Hu. exec.
      destruct (callEventIdParam p) as [ev|]; [destruct (nonempty (Some ev))|]; exec;
        try on_response; done.
    + intros x _ Hu. rewrite Hu. exec. done.
  - split; [|done]. intros _.
    destruct (callEventIdParam p) as [ev|]; [destruct (nonempty (Some ev))|]; exec;
      try on_response; done.
Qed.


(** A successful submission touches the browser state only through the
    gateway's handling of the answer to its mark-processed call. *)
Lemma submit_created_env p s srv b r :
  blank (callerNumber s) = false ->
  settle (srv (CallsCreate (callData_of p s) (create_params (callEventIdParam p)))) = Ok r ->
  (notFound s && extraInfo s = false
   \/ exists r', settle (srv (ContactsUpdate (p_contact_id r) (contactPatch_of s))) = Ok r') ->
  env_of (run (handleSubmit p s) srv s b) =
    match owed_marks p with
    | c :: _ => if unauthorized (srv c) then teardown b else b
    | [] => b
    end.
Proof.
  intros Hb Hc Hu. unfold owed_marks.
  unfold handleSubmit. rewrite Hb. exec. rewrite Hc. exec.
  destruct (notFound s && extraInfo s) eqn:Hw; exec.
  - destruct Hu as [?|[r' Hu]]; [done|]. rewrite Hu. exec.
    destruct (callEventIdParam p) as [ev|]; [destruct (nonempty (Some ev))|]; exec;
      [|done|done].
    pose proof (settle_effect (srv (FreepbxMarkProcessed ev)) b) as He.
    destruct (settle (srv (FreepbxMarkProcessed ev))); exec; exact He.
  - destruct (callEventIdParam p) as [ev|]; [destruct (nonempty (Some ev))|]; exec;
      [|done|done].
    pose proof (settle_effect (srv (FreepbxMarkProcessed ev)) b) as He.
    destruct (settle (srv (FreepbxMarkProcessed ev))); exec; exact He.
Qed.

Lemma submit_calls p s srv b :
  blank (callerNumber s) = false ->
  exists rest,
    calls_of (log_of (run (handleSubmit p s) srv s b))
    = CallsCreate (callData_of p s) (create_params (callEventIdParam p)) :: rest
    /\ List.filter is_create rest = [].
Proof.
  intros Hb.
  destruct (settle (srv (CallsCreate (callData_of p s) (create_params (callEventIdParam p)))))
    as [r|x] eqn:Hc.
  - destruct (submit_created p s srv b r Hb Hc) as [Hgood Hbad].
    destruct (notFound s && extraInfo s) eqn:Hw.
    + destruct (settle (srv (ContactsUpdate (p_contact_id r) (contactPatch_of s))))
        as [r'|x] eqn:Hu.
      * destruct Hgood as (_ & _ & ->); [eauto|]. eexists; split; [done|].
        unfold owed_marks. by repeat case_match.
      * destruct (Hbad x eq_refl eq_refl) as (_ & _ & ->). by eexists.
    + destruct Hgood as (_ & _ & ->); [eauto|]. eexists; split; [done|].
      unfold owed_marks. by repeat case_match.
  - destruct (submit_create_fails p s srv b x Hb Hc) as (-> & _). by eexists.
Qed.

(** Every create-call request that a submission sends is the one built
    from the page state and the entry parameters. *)
Lemma submit_create_sent p s srv b data ev :
  CallsCreate data ev ∈ calls_of (log_of (run (handleSubmit p s) srv s b)) ->
  blank (callerNumber s) = false
  /\ data = callData_of p s
  /\ ev = create_params (callEventIdParam p).
Proof.
  intros Hin. destruct (blank (callerNumber s)) eqn:Hb.
  - rewrite submit_blank in Hin by done. cbn in Hin. by apply elem_of_nil in Hin.
  - destruct (submit_calls p s srv b Hb) as (rest & Hl & Hrest).
    rewrite Hl in Hin. apply elem_of_cons in Hin as [Heq|Hin].
    + by inversion Heq.
    + apply list_elem_of_In in Hin.
      assert (In (CallsCreate data ev) (List.filter is_create rest)) as Hf
        by (apply filter_In; done).
      rewrite Hrest in Hf. destruct Hf.
Qed.

Lemma parseInt_number s : parseInt s = JNaN \/ exists n, parseInt s = JNum n.
Proof.
  unfold parseInt.
  repeat match goal with
         | |- context [let '(_, _) := ?x in _] => destruct x
         end.
  destruct (parse_digits _ _ None); eauto.
Qed.


(** [timerSeconds || parseInt(duration) || 0], case by case. *)
Lemma callData_duration p s :
  cd_duration (callData_of p s) =
    if (timerSeconds s =? 0)%Z then
      match parseInt (duration s) with
      | JNum n => if (n =? 0)%Z then JNum 0 else JNum n
      | _ => JNum 0
      end
    else JNum (timerSeconds s).
Proof.
  cbn [callData_of cd_duration]. unfold js_or. cbn [truthy].
  destruct (timerSeconds s =? 0)%Z eqn:E; cbn [negb truthy].
  - destruct (parseInt_number (duration s)) as [->|[n ->]]; [done|].
    cbn [truthy]. by destruct (n =? 0)%Z.
  - by rewrite E.
Qed.

(** C7.  A submission whose caller number is empty or made of whitespace
    only fails locally: an error toast is shown, nothing is sent, nothing
    is navigated to and neither the page nor the browser changes.  A
    submission with any other caller number sends the create-call request
    first. *)
Theorem submit_requires_caller_number p s srv b :
  let r := run (handleSubmit p s) srv s b in
  (forallb is_white (callerNumber s) = true ->
     toasts (log_of r) = [(Error, JStr (str "Please enter a caller number"))]
     /\ calls_of (log_of r) = []
     /\ navigations (log_of r) = []
     /\ page_of r = s
     /\ env_of r = b)
  /\ (forallb is_white (callerNumber s) = false ->
     exists rest,
       calls_of (log_of r)
       = CallsCreate (callData_of p s) (create_params (callEventIdParam p)) :: rest).
Proof.
  intros r. subst r. rewrite <- blank_spec. split; intros Hb.
  - by rewrite submit_blank.
  - destruct (submit_calls p s srv b Hb) as (rest & Hl & _). eauto.
Qed.

Lemma submit_requires_caller_number_witness :
  calls_of (log_of (run (handleSubmit manual initial) srv_ok initial signed_in)) = []
  /\ exists rest,
       calls_of (log_of (run (handleSubmit manual typed_call) srv_ok typed_call signed_in))
       = CallsCreate (callData_of manual typed_call) None :: rest.
Proof.
  split.
  - apply (proj1 (submit_requires_caller_number manual initial srv_ok signed_in)).
    vm_compute. reflexivity.
  - apply (proj2 (submit_requires_caller_number manual typed_call srv_ok signed_in)).
    vm_compute. reflexivity.
Defined.



(** C3 (as amended).  In every create-call request a submission sends,
    [contact_id] is the id of the contact the page holds when that id is
    truthy; otherwise the [contact] entry parameter when it is a non-empty
    string; otherwise [null].  The request carries [call_event_id] exactly
    when the [callEventId] entry parameter is a non-empty string, and then
    with that value. *)
Theorem create_contact_reference p s srv b data ev :
  CallsCreate data ev ∈ calls_of (log_of (run (handleSubmit p s) srv s b)) ->
  let from_redirect :=
    match contactIdParam p with
    | Some cid => if nonempty (Some cid) then JStr cid else JNull
    | None => JNull
    end in
  contact_id data =
    match existingContact s with
    | Some c => if truthy (c_id c) then c_id c else from_redirect
    | None => from_redirect
    end
  /\ (forall id, ev = Some id <-> callEventIdParam p = Some id /\ id <> []).
Proof.
  intros Hin. apply submit_create_sent in Hin as (_ & -> & ->). split.
  - unfold callData_of, contact_id, existingContact_id, js_or.
    destruct (existingContact s) as [c|]; [destruct (truthy (c_id c)) eqn:Hc|].
    + by rewrite Hc.
    + destruct (contactIdParam p) as [[|]|]; reflexivity.
    + destruct (contactIdParam p) as [[|]|]; reflexivity.
  - intros id. unfold create_params. destruct (callEventIdParam p) as [[|c r]|]; simpl.
    + split; [done|]. by intros [[= <-] ?].
    + split; [intros [= <-]; done | by intros [[= <-] _]].
    + split; [done|]. by intros [? _].
Qed.

Lemma create_contact_reference_witness :
  contact_id (callData_of redirect_known known_caller_unfetched) = JStr (str "42").
Proof.
  apply (create_contact_reference redirect_known known_caller_unfetched
           srv_contact_missing signed_in
           (callData_of redirect_known known_caller_unfetched) (Some (str "900"))).
  vm_compute. apply list_elem_of_here.
Defined.

(** C3 as stated fails: after a redirect with [contact=42] whose contact
    could not be fetched, resolution has ended not-found and no contact is
    held, yet the create-call request carries [contact_id] ["42"], not
    [null]. *)
Lemma unfetched_contact_id_is_sent :
  contactFound known_caller_unfetched = Some false
  /\ existingContact known_caller_unfetched = None
  /\ calls_of (log_of (run (handleSubmit redirect_known known_caller_unfetched)
                         srv_contact_missing known_caller_unfetched signed_in))
     = [CallsCreate (callData_of redirect_known known_caller_unfetched) (Some (str "900"));
        FreepbxMarkProcessed (str "900")]
  /\ contact_id (callData_of redirect_known known_caller_unfetched) = JStr (str "42")
  /\ contact_id (callData_of redirect_known known_caller_unfetched) <> JNull.
Proof. repeat split; try (vm_compute; reflexivity). vm_compute. discriminate. Qed.


(** C1 (as amended).  When the create-call request of a submission
    succeeds and the contact update is either not issued or succeeds, the
    flow reports success and calls [navigate('/calls')], and the requests
    sent are the create-call, then the contact update if one is due, then
    exactly one mark-processed call when the entry parameters carry a
    non-empty event id (none otherwise) -- whatever the remote side
    answers to that mark-processed call.  The browser state is left alone
    unless that answer is a 401, which the gateway handles as everywhere.
    When the contact update fails, the error is reported and the flow does
    not navigate. *)
Theorem submit_after_create p s srv b r :
  blank (callerNumber s) = false ->
  settle (srv (CallsCreate (callData_of p s) (create_params (callEventIdParam p)))) = Ok r ->
  let run_ := run (handleSubmit p s) srv s b in
  let l := log_of run_ in
  let update := ContactsUpdate (p_contact_id r) (contactPatch_of s) in
  let due := notFound s && extraInfo s in
  ((due = false \/ exists r', settle (srv update) = Ok r') ->
     navigations l = [str "/calls"]
     /\ toasts l = [(Success, JStr (str "Call logged successfully!"))]
     /\ calls_of l =
        CallsCreate (callData_of p s) (create_params (callEventIdParam p))
          :: (if due then [update] else []) ++ owed_marks p
     /\ marks l = owed_marks p
     /\ env_of run_ =
        match owed_marks p with
        | c :: _ => if unauthorized (srv c) then teardown b else b
        | [] => b
        end)
  /\ (forall x, due = true -> settle (srv update) = Throw x ->
     navigations l = []
     /\ toasts l = [(Error, js_or (detail_of x) (JStr (str "Failed to log call")))]).
Proof.
  intros Hb Hc run_ l update due. subst run_ l update due.
  destruct (submit_created p s srv b r Hb Hc) as [Hgood Hbad]. split.
  - intros Hu. destruct (Hgood Hu) as (Hn & Ht & Hl).
    split; [done|]. split; [done|]. split; [done|]. split.
    + unfold marks. rewrite Hl. unfold owed_marks. by repeat case_match.
    + by apply (submit_created_env p s srv b r).
  - intros x Hd Hu. destruct (Hbad x Hd Hu) as (Hn & Ht & _). done.
Qed.

Lemma submit_after_create_witness :
  navigations (log_of (run (handleSubmit redirect_new new_caller_named)
                         srv_ok new_caller_named signed_in)) = [str "/calls"].
Proof.
  assert (Hb : blank (callerNumber new_caller_named) = false)
    by (vm_compute; reflexivity).
  assert (Hc : settle (srv_ok (CallsCreate (callData_of redirect_new new_caller_named)
                                 (create_params (callEventIdParam redirect_new))))
               = Ok empty_body) by (vm_compute; reflexivity).
  apply (proj1 (submit_after_create redirect_new new_caller_named srv_ok signed_in
                  empty_body Hb Hc)).
  right. exists empty_body. vm_compute. reflexivity.
Defined.

(** C1 as stated fails.  The call record is created and the contact
    update is refused: the flow neither navigates nor marks event 900
    processed, and the outcome reported is the error of the update.  And a
    mark-processed call answered 401 is not without effect on navigation:
    the flow reports success and calls [navigate('/calls')], but the
    gateway has cleared the session and sent the browser to [/login]. *)
Lemma update_failure_blocks_navigation :
  (let r := run (handleSubmit redirect_new new_caller_named)
              srv_update_refused new_caller_named signed_in in
   settle (srv_update_refused
             (CallsCreate (callData_of redirect_new new_caller_named) (Some (str "900"))))
   = Ok (with_contact_id 7)
   /\ callEventIdParam redirect_new = Some (str "900")
   /\ calls_of (log_of r)
      = [CallsCreate (callData_of redirect_new new_caller_named) (Some (str "900"));
         ContactsUpdate (JNum 7) (contactPatch_of new_caller_named)]
   /\ navigations (log_of r) = []
   /\ marks (log_of r) = []
   /\ toasts (log_of r) = [(Error, JStr (str "Database unavailable"))])
  /\ (let r := run (handleSubmit redirect_known known_caller_unfetched)
                 srv_mark_unauthorized known_caller_unfetched signed_in in
      calls_of (log_of r)
      = [CallsCreate (callData_of redirect_known known_caller_unfetched) (Some (str "900"));
         FreepbxMarkProcessed (str "900")]
      /\ toasts (log_of r) = [(Success, JStr (str "Call logged successfully!"))]
      /\ navigations (log_of r) = [str "/calls"]
      /\ href signed_in = str "/calls"
      /\ href (env_of r) = str "/login"
      /\ getItem (env_of r) "token" = None).
Proof. repeat split; vm_compute; reflexivity. Qed.

(** C5 (as amended).  For a submission whose contact resolution ended
    not-found: when name, email, address and company are all empty no
    contact update is sent; when one of them is not empty and the
    create-call request succeeds, exactly one contact update is sent, to
    the [contact_id] of the create-call response, with the four fields. *)
Theorem not_found_contact_update p s srv b :
  contactFound s = Some false ->
  let l := log_of (run (handleSubmit p s) srv s b) in
  (newContactName s = [] /\ newContactEmail s = []
   /\ newContactAddress s = [] /\ newContactCompany s = [] ->
     updates l = [])
  /\ (newContactName s <> [] \/ newContactEmail s <> []
      \/ newContactAddress s <> [] \/ newContactCompany s <> [] ->
      forall r,
        blank (callerNumber s) = false ->
        settle (srv (CallsCreate (callData_of p s) (create_params (callEventIdParam p)))) = Ok r ->
        updates l = [ContactsUpdate (p_contact_id r) (contactPatch_of s)]).
Proof.
  intros Hnf l. subst l.
  assert (Hnot : notFound s = true) by (unfold notFound; by rewrite Hnf).
  assert (Hmarks : List.filter is_update (owed_marks p) = [])
    by (unfold owed_marks; by repeat case_match).
  split.
  - intros (H1 & H2 & H3 & H4).
    assert (Hex : extraInfo s = false) by (unfold extraInfo; by rewrite H1, H2, H3, H4).
    destruct (blank (callerNumber s)) eqn:Hb.
    { by rewrite submit_blank. }
    destruct (settle (srv (CallsCreate (callData_of p s) (create_params (callEventIdParam p)))))
      as [r|x] eqn:Hc.
    + destruct (submit_created p s srv b r Hb Hc) as [Hgood _].
      rewrite Hnot, Hex in Hgood. destruct Hgood as (_ & _ & Hl); [by left|].
      unfold updates. rewrite Hl. simpl. exact Hmarks.
    + destruct (submit_create_fails p s srv b x Hb Hc) as (Hl & _).
      unfold updates. by rewrite Hl.
  - intros Hsome r Hb Hc.
    assert (Hex : extraInfo s = true).
    { unfold extraInfo, js_or. cbn [truthy].
      destruct (newContactName s); [|done].
      destruct (newContactEmail s); [|done].
      destruct (newContactAddress s); [|done].
      destruct (newContactCompany s); [|done].
      by destruct Hsome as [?|[?|[?|?]]]. }
    destruct (submit_created p s srv b r Hb Hc) as [Hgood Hbad].
    rewrite Hnot, Hex in Hgood, Hbad.
    destruct (settle (srv (ContactsUpdate (p_contact_id r) (contactPatch_of s))))
      as [r'|x] eqn:Hu.
    + destruct Hgood as (_ & _ & Hl); [eauto|].
      unfold updates. rewrite Hl. simpl. by rewrite Hmarks.
    + destruct (Hbad x eq_refl eq_refl) as (_ & _ & Hl).
      unfold updates. by rewrite Hl.
Qed.

Lemma not_found_contact_update_witness :
  updates (log_of (run (handleSubmit redirect_new new_caller_named)
                     srv_update_refused new_caller_named signed_in))
  = [ContactsUpdate (JNum 7) (contactPatch_of new_caller_named)].
Proof.
  assert (Hnf : contactFound new_caller_named = Some false)
    by (vm_compute; reflexivity).
  assert (Hname : newContactName new_caller_named <> [])
    by (vm_compute; discriminate).
  assert (Hb : blank (callerNumber new_caller_named) = false)
    by (vm_compute; reflexivity).
  assert (Hc : settle (srv_update_refused
                         (CallsCreate (callData_of redirect_new new_caller_named)
                            (create_params (callEventIdParam redirect_new))))
               = Ok (with_contact_id 7)) by (vm_compute; reflexivity).
  exact (proj2 (not_found_contact_update redirect_new new_caller_named
                  srv_update_refused signed_in Hnf)
           (or_introl Hname) (with_contact_id 7) Hb Hc).
Defined.

(** C5 as stated fails: resolution ended not-found and a name was
    supplied, but the create-call request fails, so there is no response
    and no contact update is sent. *)
Lemma no_update_without_create :
  let r := run (handleSubmit redirect_new new_caller_named)
             srv_down new_caller_named signed_in in
  contactFound new_caller_named = Some false
  /\ newContactName new_caller_named = str "Ann"
  /\ calls_of (log_of r)
     = [CallsCreate (callData_of redirect_new new_caller_named) (Some (str "900"))]
  /\ updates (log_of r) = []
  /\ toasts (log_of r) = [(Error, JStr (str "Failed to log call"))].
Proof. repeat split; vm_compute; reflexivity. Qed.

(** C6.  The manual duration input is shown exactly when the stopwatch
    is stopped at zero, never together with the timer display; the submit
    button is disabled whenever the stopwatch runs; and when the stopwatch
    runs or shows a nonzero value, a submission that the button allows
    sends the stopwatch value whatever the manual field holds. *)
Theorem stopwatch_excludes_manual p s :
  (manualInputShown s = true <-> timerRunning s = false /\ timerSeconds s = 0%Z)
  /\ timerDisplayShown s && manualInputShown s = false
  /\ (timerRunning s = true -> submitDisabled s = true)
  /\ (timerRunning s = true \/ timerSeconds s <> 0%Z ->
      manualInputShown s = false
      /\ (submitDisabled s = false ->
          forall manual srv b data ev,
            CallsCreate data ev
              ∈ calls_of (log_of (run (handleSubmit p (setDuration manual s)) srv
                                    (setDuration manual s) b)) ->
            cd_duration data = JNum (timerSeconds s))).
Proof.
  unfold manualInputShown, timerDisplayShown, submitDisabled.
  split; [|split; [|split]].
  - rewrite andb_true_iff, negb_true_iff, Z.eqb_eq. done.
  - destruct (timerRunning s); simpl; [done|].
    destruct (Z.ltb_spec 0 (timerSeconds s)), (Z.eqb_spec (timerSeconds s) 0);
      simpl; lia.
  - intros ->. apply orb_true_r.
  - intros Hsw. split.
    + destruct (timerRunning s); [done|]. destruct Hsw as [?|Hne]; [done|].
      simpl. by apply Z.eqb_neq.
    + intros Hd manual srv b data ev Hin.
      apply orb_false_iff in Hd as [_ Hrun].
      destruct Hsw as [Hr|Hne]; [congruence|].
      apply submit_create_sent in Hin as (_ & -> & _).
      rewrite callData_duration.
      destruct s; simpl in *. apply Z.eqb_neq in Hne. by rewrite Hne.
Qed.

Lemma stopwatch_excludes_manual_witness :
  manualInputShown new_caller_named = false
  /\ cd_duration (callData_of redirect_new (setDuration (str "999") new_caller_named))
     = JNum 30.
Proof.
  assert (Hne : timerSeconds new_caller_named <> 0%Z)
    by (vm_compute; discriminate).
  assert (Hen : submitDisabled new_caller_named = false)
    by (vm_compute; reflexivity).
  destruct (proj2 (proj2 (proj2 (stopwatch_excludes_manual redirect_new new_caller_named)))
              (or_intror Hne)) as [Hshown Hused].
  split; [exact Hshown|].
  apply (Hused Hen (str "999") srv_ok signed_in _ (Some (str "900"))).
  vm_compute. apply list_elem_of_here.
Defined.

End SubmitFacts.

(** ** Route guards and navigation (C8) *)

Module RouteFacts.
Import JS App Scenario.

Lemma admin_item (r : option jsstring) :
  str "Admin" ∈ label <$> getNavItems r <-> r = Some (str "admin").
Proof.
  unfold getNavItems. case_bool_decide as Hr.
  - split; [done|]. intros _. vm_compute. do 4 apply list_elem_of_further.
    apply list_elem_of_here.
  - split; [|done]. intros Hin. vm_compute in Hin.
    repeat (apply elem_of_cons in Hin as [Hin|Hin]; [discriminate|]).
    by apply elem_of_nil in Hin.
Qed.

Lemma admin_routes path e :
  (path, e) ∈ AppRoutes ->
  path = str "/admin" \/ path = str "/admin/*" ->
  e = Protected (Some [str "admin"]) AdminPage.
Proof.
  unfold AppRoutes. intros Hin Hpath.
  repeat (apply elem_of_cons in Hin as [Hin|Hin];
          [inversion Hin; subst; try reflexivity;
           destruct Hpath as [Hp|Hp]; vm_compute in Hp; discriminate |]).
  by apply elem_of_nil in Hin.
Qed.

(** C8 (as amended).  For every route of the table.  Once the session
    check has finished ([loading] is false): with no current user a
    protected route redirects to [/login]; a route that requires roles
    redirects a user whose role is not among them to [/dashboard], and the
    two admin routes do so for every role other than ['admin']; otherwise
    the page is shown inside the layout; and the navigation holds the
    'Admin' item if and only if the role is ['admin'].  While the session
    check is in progress ([loading] is true) every protected route renders
    the spinner, whoever the user is, and so does not redirect. *)
Theorem route_guards (a : auth) (path : jsstring) (e : element) :
  (path, e) ∈ AppRoutes ->
  (loading a = false ->
     (forall roles pg, e = Protected roles pg -> current a = None ->
        render a e = NavigateTo (str "/login"))
     /\ (forall roles pg u, e = Protected (Some roles) pg -> current a = Some u ->
           role u ∉ roles -> render a e = NavigateTo (str "/dashboard"))
     /\ (forall u, path = str "/admin" \/ path = str "/admin/*" ->
           current a = Some u ->
           if bool_decide (role u = str "admin")
           then render a e = InLayout (getNavItems (Some (role u))) AdminPage
           else render a e = NavigateTo (str "/dashboard"))
     /\ (forall r : option jsstring,
           str "Admin" ∈ label <$> getNavItems r <-> r = Some (str "admin"))
     /\ (forall u, current a = Some u ->
           showsAdmin (Layout a DashboardPage) = true <-> role u = str "admin"))
  /\ (loading a = true ->
        forall roles pg, e = Protected roles pg ->
          render a e = Spinner
          /\ (forall to, render a e <> NavigateTo to)).
Proof.
  intros Hin. split; [|intros Hload roles pg ->; simpl; unfold ProtectedRoute;
                       rewrite Hload; by split].
  intros Hload. split; [|split; [|split; [|split]]].
  - intros roles pg -> Hu. simpl. unfold ProtectedRoute. by rewrite Hload, Hu.
  - intros roles pg u -> Hu Hr. simpl. unfold ProtectedRoute, includes.
    rewrite Hload, Hu. by rewrite bool_decide_eq_false_2.
  - intros u Hpath Hu. rewrite (admin_routes path e Hin Hpath).
    simpl. unfold ProtectedRoute, includes, Layout. rewrite Hload, Hu. simpl.
    case_bool_decide as Hr.
    + rewrite bool_decide_eq_true_2; [done|]. rewrite Hr. apply list_elem_of_here.
    + rewrite bool_decide_eq_false_2; [done|].
      intros Hin'. apply list_elem_of_singleton in Hin'. done.
  - apply admin_item.
  - intros u Hu. unfold Layout, showsAdmin. rewrite Hu. simpl.
    rewrite bool_decide_eq_true, admin_item. split; [by intros [= ->] | by intros ->].
Qed.

Lemma route_guards_witness :
  render nobody (Protected None CallLogPage) = NavigateTo (str "/login")
  /\ render agent_session (Protected (Some [str "admin"]) AdminPage)
     = NavigateTo (str "/dashboard")
  /\ render checking_session (Protected None CallLogPage) = Spinner.
Proof.
  assert (H1 : (str "/calls/new", Protected None CallLogPage) ∈ AppRoutes).
  { unfold AppRoutes. do 3 apply list_elem_of_further. apply list_elem_of_here. }
  assert (H2 : (str "/admin", Protected (Some [str "admin"]) AdminPage) ∈ AppRoutes).
  { unfold AppRoutes. do 7 apply list_elem_of_further. apply list_elem_of_here. }
  split; [|split].
  - exact (proj1 (proj1 (route_guards nobody _ _ H1) eq_refl)
             None CallLogPage eq_refl eq_refl).
  - exact (proj1 (proj2 (proj2 (proj1 (route_guards agent_session _ _ H2) eq_refl)))
             _ (or_introl eq_refl) eq_refl).
  - exact (proj1 (proj2 (route_guards checking_session _ _ H1) eq_refl
                    None CallLogPage eq_refl)).
Defined.

(** C8 as stated fails: while the session check is in progress no user
    is authenticated, and a protected route shows a spinner instead of
    redirecting to [/login]. *)
Lemma guard_waits_for_session_check :
  (str "/dashboard", Protected None DashboardPage) ∈ AppRoutes
  /\ current checking_session = None
  /\ render checking_session (Protected None DashboardPage) = Spinner
  /\ render checking_session (Protected None DashboardPage)
     <> NavigateTo (str "/login").
Proof.
  repeat split.
  - unfold AppRoutes. do 2 apply list_elem_of_further. apply list_elem_of_here.
  - discriminate.
Qed.

End RouteFacts.

(** ** Password reset (C9) *)

Module AdminFacts.
Import JS Api Eff Http Admin Obs Exec Scenario.

Lemma reset_keeps_selection s srv b :
  selectedUser (page_of (run (handleResetPassword s) srv s b)) = selectedUser s.
Proof.
  unfold handleResetPassword, selectedUser_id.
  destruct (length (newPassword s) <? 6)%nat; [done|].
  destruct (selectedUser s) as [u|] eqn:Hu; exec.
  - destruct (settle _); exec; simpl; done.
  - simpl. done.
Qed.

(** While the reset dialog is open a user is selected. *)
Lemma open_dialog_has_user s :
  reachable s -> isResetPasswordOpen s = true -> is_Some (selectedUser s).
Proof.
  induction 1 as [|a s Hreach IH Hen]; [discriminate|].
  destruct a as [u|u|u|v| |srv b]; cbn [step enabled] in *.
  - intros _. by exists u.
  - intros _. by exists u.
  - intros _. by exists u.
  - exact IH.
  - discriminate.
  - intros _. apply andb_true_iff in Hen as [Hopen _].
    fold (page_of (run (handleResetPassword s) srv s b)).
    rewrite reset_keeps_selection. by apply IH.
Qed.

(** C9.  In any state of the administration page where the reset dialog
    is open, confirming sends the reset-password request (for the selected
    user, with the entered password) when the password has at least 6
    code units, and sends nothing otherwise, showing a local error and
    leaving the page and the browser unchanged. *)
Theorem reset_password_min_length s srv b :
  reachable s ->
  isResetPasswordOpen s = true ->
  let r := run (handleResetPassword s) srv s b in
  ((6 <= length (newPassword s))%nat ->
     exists u, selectedUser s = Some u
       /\ calls_of (log_of r) = [AdminResetPassword (u_id u) (newPassword s)])
  /\ ((length (newPassword s) < 6)%nat ->
     calls_of (log_of r) = []
     /\ toasts (log_of r) = [(Error, JStr (str "Password must be at least 6 characters"))]
     /\ page_of r = s
     /\ env_of r = b).
Proof.
  intros Hreach Hopen r. subst r.
  destruct (open_dialog_has_user s Hreach Hopen) as [u Hu].
  unfold handleResetPassword, selectedUser_id. rewrite Hu. split.
  - intros Hlen. exists u. split; [done|].
    destruct (Nat.ltb_spec (length (newPassword s)) 6); [lia|].
    exec. by destruct (settle _).
  - intros Hlen.
    destruct (Nat.ltb_spec (length (newPassword s)) 6); [|lia]. done.
Qed.

Lemma reset_password_min_length_witness :
  calls_of (log_of (run (handleResetPassword (reset_typed (str "secret1")))
                      srv_ok (reset_typed (str "secret1")) signed_in))
  = [AdminResetPassword (JNum 5) (str "secret1")]
  /\ calls_of (log_of (run (handleResetPassword (reset_typed (str "abc")))
                         srv_ok (reset_typed (str "abc")) signed_in))
     = [].
Proof.
  assert (Hreach : forall pw, reachable (reset_typed pw)).
  { intros pw. unfold reset_typed.
    apply reach_step; [apply reach_step; [apply reach_initial | reflexivity] | reflexivity]. }
  split.
  - destruct (proj1 (reset_password_min_length (reset_typed (str "secret1")) srv_ok
                       signed_in (Hreach _) eq_refl) ltac:(simpl; lia))
      as (u & Hu & Hcalls).
    injection Hu as <-. exact Hcalls.
  - apply (proj2 (reset_password_min_length (reset_typed (str "abc")) srv_ok
                    signed_in (Hreach _) eq_refl)).
    simpl. lia.
Defined.

End AdminFacts.

(** ** The call-logging page: mount, lookup and what survives a
    submission *)

Module CallLogFacts.
Import JS Api Eff Http CallLog Obs Exec JSFacts Scenario Scenario2 CallLogUI.

Lemma submit_page p s srv b :
  page_of (run (handleSubmit p s) srv s b)
  = if blank (callerNumber s) then s else setIsSubmitting false s.
Proof.
  unfold handleSubmit. destruct (blank (callerNumber s)); [done|]. exec.
  on_response.
  - destruct (notFound s && extraInfo s); exec.
    + on_response; [|by destruct s].
      destruct (callEventIdParam p) as [ev|]; [destruct (nonempty (Some ev))|]; exec;
        try on_response; by destruct s.
    + destruct (callEventIdParam p) as [ev|]; [destruct (nonempty (Some ev))|]; exec;
        try on_response; by destruct s.
  - by destruct s.
Qed.

Lemma search_page s srv b :
  page_of (run (handlePhoneSearch s) srv s b)
  = if blank (callerNumber s) then s
    else if well_formed (trim (callerNumber s)) then
      match settle (srv (ContactsGetByPhone (trim (callerNumber s)))) with
      | Ok response =>
          if truthy (p_found response)
          then setIsSearching false
                 (setExistingContact (p_contact response)
                    (setContactFound (Some true) s))
          else setIsSearching false
                 (setExistingContact None (setContactFound (Some false) s))
      | Throw _ => setIsSearching false s
      end
    else setIsSearching false s.
Proof.
  unfold handlePhoneSearch. destruct (blank (callerNumber s)); [done|]. exec.
  destruct (well_formed (trim (callerNumber s))); exec; [|by destruct s].
  on_response.
  - destruct (truthy (p_found a)); exec; by destruct s.
  - by destruct s.
Qed.

(** The mount effect, run on any state of the page (it runs again when
    the entry parameters change). *)
Lemma init_page_from p srv s b :
  page_of (run (initFromParams p) srv s b)
  = match phoneParam p with
    | Some phone =>
        if nonempty (Some phone) then
          let s1 := setIsFromFreePBX true (setCallerNumber phone s) in
          setTimerRunning true
            match contactIdParam p with
            | Some cid =>
                if nonempty (Some cid) then
                  match settle (srv (ContactsGetById cid)) with
                  | Ok response =>
                      setContactFound (Some true)
                        (setExistingContact
                           (Some {| c_id := p_id response; c_name := p_name response |}) s1)
                  | Throw _ => setContactFound (Some false) s1
                  end
                else setContactFound (Some false) s1
            | None => setContactFound (Some false) s1
            end
        else s
    | None => s
    end.
Proof.
  unfold initFromParams.
  destruct (phoneParam p) as [phone|]; [|done].
  destruct (nonempty (Some phone)); [|done].
  destruct (contactIdParam p) as [cid|]; [destruct (nonempty (Some cid))|]; exec;
    try on_response; done.
Qed.

Lemma init_page p srv b :
  page_of (run (initFromParams p) srv initial b)
  = match phoneParam p with
    | Some phone =>
        if nonempty (Some phone) then
          let s1 := setIsFromFreePBX true (setCallerNumber phone initial) in
          setTimerRunning true
            match contactIdParam p with
            | Some cid =>
                if nonempty (Some cid) then
                  match settle (srv (ContactsGetById cid)) with
                  | Ok response =>
                      setContactFound (Some true)
                        (setExistingContact
                           (Some {| c_id := p_id response; c_name := p_name response |}) s1)
                  | Throw _ => setContactFound (Some false) s1
                  end
                else setContactFound (Some false) s1
            | None => setContactFound (Some false) s1
            end
        else initial
    | None => initial
    end.
Proof.
  unfold initFromParams.
  destruct (phoneParam p) as [phone|]; [|done].
  destruct (nonempty (Some phone)); [|done].
  destruct (contactIdParam p) as [cid|]; [destruct (nonempty (Some cid))|]; exec;
    try on_response; done.
Qed.

Lemma init_calls p srv b :
  calls_of (log_of (run (initFromParams p) srv initial b))
  = match phoneParam p, contactIdParam p with
    | Some phone, Some cid =>
        if nonempty (Some phone) && nonempty (Some cid)
        then [ContactsGetById cid] else []
    | _, _ => []
    end.
Proof.
  unfold initFromParams.
  destruct (phoneParam p) as [phone|]; [|done].
  destruct (nonempty (Some phone)); [|by destruct (contactIdParam p)].
  destruct (contactIdParam p) as [cid|]; [destruct (nonempty (Some cid))|]; exec;
    try on_response; done.
Qed.

(** X1.  Mounting the call-logging page.  Without a [phone] parameter the
    mount effect does nothing.  With one, the caller number is pre-filled,
    the page is flagged as redirected and the stopwatch runs from zero;
    a contact is fetched exactly when a [contact] parameter comes with
    it; resolution ends found, holding the fetched contact, when that
    fetch succeeds, and not-found with no contact held in every other case. *)
Theorem mount_from_redirect p srv b :
  let r := run (initFromParams p) srv initial b in
  let s := page_of r in
  (nonempty (phoneParam p) = false ->
     s = initial /\ log_of r = [] /\ env_of r = b)
  /\ (forall phone, phoneParam p = Some phone -> phone <> [] ->
        callerNumber s = phone
        /\ isFromFreePBX s = true
        /\ timerRunning s = true
        /\ timerSeconds s = 0%Z
        /\ calls_of (log_of r)
           = match contactIdParam p with
             | Some cid => if nonempty (Some cid) then [ContactsGetById cid] else []
             | None => []
             end
        /\ match contactIdParam p with
           | Some cid =>
               if nonempty (Some cid) then
                 match settle (srv (ContactsGetById cid)) with
                 | Ok response =>
                     contactFound s = Some true
                     /\ existingContact s
                        = Some {| c_id := p_id response; c_name := p_name response |}
                 | Throw _ => contactFound s = Some false /\ existingContact s = None
                 end
               else contactFound s = Some false /\ existingContact s = None
           | None => contactFound s = Some false /\ existingContact s = None
           end).
Proof.
  intros r s. subst r s. split.
  - intros Hp. unfold initFromParams.
    destruct (phoneParam p) as [phone|]; [|done]. by rewrite Hp.
  - intros phone Hp Hne. rewrite init_calls, init_page, Hp.
    assert (Ht : nonempty (Some phone) = true) by (by destruct phone).
    rewrite Ht. cbn [andb].
    destruct (contactIdParam p) as [cid|]; [destruct (nonempty (Some cid))|];
      [destruct (settle (srv (ContactsGetById cid)))| |]; done.
Qed.

Lemma mount_from_redirect_witness :
  callerNumber (mounted redirect_known srv_contact_missing) = str "+15559876543"
  /\ timerRunning (mounted redirect_known srv_contact_missing) = true.
Proof.
  destruct (proj2 (mount_from_redirect redirect_known srv_contact_missing signed_in)
              (str "+15559876543") eq_refl ltac:(discriminate))
    as (H1 & _ & H3 & _).
  split; [exact H1 | exact H3].
Defined.

(** X2.  Looking a number up.  A blank number gives a local error and no
    request.  A number that, trimmed, is well-formed UTF-16 is looked up
    with exactly one request and the searching flag is down again at the
    end: a found answer stores the contact of the answer and marks
    resolution found, a not-found answer clears the contact and marks it
    not-found, and a failed request shows an error and leaves the
    resolution as it was.  A number with a lone surrogate cannot be
    escaped into the path: nothing is sent, the same error is shown, and
    the resolution and the browser are left as they were. *)
Theorem lookup_outcomes s srv b :
  let r := run (handlePhoneSearch s) srv s b in
  let number := trim (callerNumber s) in
  (forallb is_white (callerNumber s) = true ->
     calls_of (log_of r) = []
     /\ toasts (log_of r) = [(Error, JStr (str "Please enter a phone number"))]
     /\ page_of r = s)
  /\ (forallb is_white (callerNumber s) = false ->
      well_formed number = true ->
     calls_of (log_of r) = [ContactsGetByPhone number]
     /\ isSearching (page_of r) = false
     /\ match settle (srv (ContactsGetByPhone number)) with
        | Ok response =>
            if truthy (p_found response) then
              contactFound (page_of r) = Some true
              /\ existingContact (page_of r) = p_contact response
              /\ toasts (log_of r) = [(Success, JStr (str "Contact found!"))]
            else
              contactFound (page_of r) = Some false
              /\ existingContact (page_of r) = None
        | Throw _ =>
            contactFound (page_of r) = contactFound s
            /\ existingContact (page_of r) = existingContact s
            /\ toasts (log_of r) = [(Error, JStr (str "Failed to search for contact"))]
        end)
  /\ (forallb is_white (callerNumber s) = false ->
      well_formed number = false ->
     calls_of (log_of r) = []
     /\ isSearching (page_of r) = false
     /\ contactFound (page_of r) = contactFound s
     /\ existingContact (page_of r) = existingContact s
     /\ toasts (log_of r) = [(Error, JStr (str "Failed to search for contact"))]
     /\ env_of r = b).
Proof.
  intros r number. subst r number. rewrite <- blank_spec.
  split; [|split]; intros Hb.
  - unfold handlePhoneSearch. by rewrite Hb.
  - intros Hwf. rewrite search_page, Hb, Hwf.
    unfold handlePhoneSearch. rewrite Hb. exec. rewrite Hwf. exec.
    on_response.
    + destruct (truthy (p_found a)); exec; by destruct s.
    + by destruct s.
  - intros Hwf. rewrite search_page, Hb, Hwf.
    unfold handlePhoneSearch. rewrite Hb. exec. rewrite Hwf. exec.
    by destruct s.
Qed.

Lemma lookup_outcomes_witness :
  calls_of (log_of (run (handlePhoneSearch typed_call) srv_ok typed_call signed_in))
  = [ContactsGetByPhone (str "+15551234567")]
  /\ calls_of (log_of (run (handlePhoneSearch initial) srv_ok initial signed_in)) = []
  /\ calls_of (log_of (run (handlePhoneSearch (setCallerNumber [55296] initial)) srv_ok
                         (setCallerNumber [55296] initial) signed_in)) = [].
Proof.
  split; [|split].
  - apply (proj1 (proj2 (lookup_outcomes typed_call srv_ok signed_in))).
    + vm_compute. reflexivity.
    + vm_compute. reflexivity.
  - apply (proj1 (lookup_outcomes initial srv_ok signed_in)).
    vm_compute. reflexivity.
  - apply (proj2 (proj2 (lookup_outcomes (setCallerNumber [55296] initial)
                           srv_ok signed_in))).
    + vm_compute. reflexivity.
    + vm_compute. reflexivity.
Defined.






(** *** The states the setter calls can produce *)

Ltac attain :=
  repeat match goal with
         | H : attainable ?s |- attainable ?s => exact H
         | |- attainable initial => exact attain_initial
         | |- attainable (setIsSubmitting ?v ?s) => apply (attain_update (SetIsSubmitting v) s)
         | |- attainable (setIsSearching ?v ?s) => apply (attain_update (SetIsSearching v) s)
         | |- attainable (setContactFound ?v ?s) => apply (attain_update (SetContactFound v) s)
         | |- attainable (setExistingContact ?v ?s) =>
             apply (attain_update (SetExistingContact v) s)
         | |- attainable (setIsFromFreePBX true ?s) => apply (attain_update SetIsFromFreePBX s)
         | |- attainable (setCallerNumber ?v ?s) => apply (attain_update (SetCallerNumber v) s)
         | |- attainable (setDuration ?v ?s) => apply (attain_update (SetDuration v) s)
         | |- attainable (setTimerRunning ?v ?s) => apply (attain_update (SetTimerRunning v) s)
         | |- attainable (setTimerSeconds (fun prev => prev + 1)%Z ?s) =>
             apply (attain_update IncrementTimerSeconds s)
         | |- attainable (setTimerSeconds (fun _ => 0%Z) ?s) =>
             apply (attain_update ResetTimerSeconds s)
         end.

(** The handlers of the page, the interval and the mount effect (for any
    entry parameters and any answers) lead from such a state to such a
    state. *)
Lemma attainable_handlers s :
  attainable s ->
  attainable (tick s)
  /\ attainable (toggleTimer s)
  /\ (forall v, attainable (onCallerNumberChange v s))
  /\ (forall p srv b, attainable (page_of (run (initFromParams p) srv s b)))
  /\ (forall srv b, attainable (page_of (run (handlePhoneSearch s) srv s b)))
  /\ (forall p srv b, attainable (page_of (run (handleSubmit p s) srv s b))).
Proof.
  intros Hs. split; [|split; [|split; [|split; [|split]]]].
  - unfold tick. destruct (timerRunning s); attain.
  - unfold toggleTimer. destruct (timerRunning s); attain.
  - intros v. unfold onCallerNumberChange. destruct (negb (isFromFreePBX s)); attain.
  - intros p srv b. rewrite init_page_from.
    destruct (phoneParam p) as [phone|]; [|done].
    destruct (nonempty (Some phone)); [|done]. cbn zeta.
    destruct (contactIdParam p) as [cid|]; [destruct (nonempty (Some cid))|];
      [destruct (settle (srv (ContactsGetById cid)))| |]; attain.
  - intros srv b. rewrite search_page.
    destruct (blank (callerNumber s)); [done|].
    destruct (well_formed _); [|attain].
    destruct (settle _) as [response|x]; [destruct (truthy (p_found response))|];
      attain.
  - intros p srv b. rewrite submit_page.
    destruct (blank (callerNumber s)); attain.
Qed.

Lemma attainable_counter s : attainable s -> (0 <= timerSeconds s)%Z.
Proof.
  induction 1 as [|u s _ IH]; [done|].
  destruct u as [v|v|v|v| |v|v|f v|v| |]; try destruct f;
    destruct s; cbn in *; lia.
Qed.

(** X6.  In every state that the setter calls of the page can produce --
    whatever the events, the answers, the entry parameters and the
    interleaving of the handlers -- the stopwatch counter is not negative
    and exactly one of the timer display and the manual duration input is
    shown. *)
Theorem one_duration_control s :
  attainable s ->
  (0 <= timerSeconds s)%Z
  /\ timerDisplayShown s = negb (manualInputShown s).
Proof.
  intros Hs. pose proof (attainable_counter s Hs) as Ht.
  split; [done|]. unfold timerDisplayShown, manualInputShown.
  destruct (timerRunning s); [done|]. cbn.
  destruct (Z.ltb_spec 0 (timerSeconds s)), (Z.eqb_spec (timerSeconds s) 0); cbn; lia.
Qed.

Lemma ticks_running n s :
  timerRunning s = true ->
  timerRunning (ticks n s) = true
  /\ timerSeconds (ticks n s) = (timerSeconds s + Z.of_nat n)%Z.
Proof.
  revert s. induction n as [|n IH]; intros s Hr; cbn [ticks].
  - split; [done | lia].
  - assert (Hr' : timerRunning (tick s) = true)
      by (unfold tick; rewrite Hr; by destruct s).
    destruct (IH _ Hr') as (H1 & H2). split; [done|].
    rewrite H2. unfold tick. rewrite Hr. destruct s; cbn. lia.
Qed.

Lemma attainable_ticks n s : attainable s -> attainable (ticks n s).
Proof.
  revert s. induction n as [|n IH]; intros s Hs; cbn [ticks]; [done|].
  apply IH. by apply attainable_handlers.
Qed.

(** A redirected call from a known contact, stopped after 30 seconds. *)
Lemma one_duration_control_witness :
  let s := toggleTimer
             (ticks 30 (page_of (run (initFromParams redirect_known) srv_contact_42
                                   initial signed_in))) in
  (0 <= timerSeconds s)%Z
  /\ timerDisplayShown s = negb (manualInputShown s).
Proof.
  intros s. apply (one_duration_control s). subst s.
  pose proof (proj1 (proj2 (proj2 (proj2 (attainable_handlers initial attain_initial))))
                redirect_known srv_contact_42 signed_in) as Hinit.
  pose proof (attainable_ticks 30 _ Hinit) as Ht.
  exact (proj1 (proj2 (attainable_handlers _ Ht))).
Defined.


(** X7.  The stopwatch measures: from a running stopwatch showing [k],
    [n] ticks and a stop leave it stopped at [k + n], write that value in
    the manual duration field, and make a submission send exactly
    [k + n] as the duration (zero included) -- and a restart begins again
    from zero. *)
Theorem stopwatch_measures p s n :
  timerRunning s = true ->
  (0 <= timerSeconds s)%Z ->
  let total := (timerSeconds s + Z.of_nat n)%Z in
  let s' := toggleTimer (ticks n s) in
  timerRunning s' = false
  /\ timerSeconds s' = total
  /\ duration s' = toString total
  /\ cd_duration (callData_of p s') = JNum total
  /\ timerRunning (toggleTimer s') = true
  /\ timerSeconds (toggleTimer s') = 0%Z.
Proof.
  intros Hr Hk total s'. subst total s'.
  destruct (ticks_running n s Hr) as (Hrn & Hsn).
  assert (Hstop : forall t, timerRunning t = true ->
            timerRunning (toggleTimer t) = false
            /\ timerSeconds (toggleTimer t) = timerSeconds t
            /\ duration (toggleTimer t) = toString (timerSeconds t)).
  { intros t Ht. unfold toggleTimer. rewrite Ht. by destruct t. }
  destruct (Hstop _ Hrn) as (H1 & H2 & H3).
  rewrite H1, H2, H3, Hsn. repeat split.
  - rewrite SubmitFacts.callData_duration, H2, H3, Hsn.
    rewrite parseInt_toString by lia.
    destruct (Z.eqb_spec (timerSeconds s + Z.of_nat n) 0) as [->|Hne]; [done|].
    done.
  - unfold toggleTimer at 1. rewrite H1. by destruct (toggleTimer (ticks n s)).
  - unfold toggleTimer at 1. rewrite H1. by destruct (toggleTimer (ticks n s)).
Qed.

Lemma stopwatch_measures_witness :
  cd_duration (callData_of redirect_known
                 (toggleTimer (ticks 30 (mounted redirect_known srv_contact_42))))
  = JNum 30.
Proof.
  assert (Hr : timerRunning (mounted redirect_known srv_contact_42) = true)
    by (vm_compute; reflexivity).
  assert (Hk : (0 <= timerSeconds (mounted redirect_known srv_contact_42))%Z)
    by (vm_compute; discriminate).
  destruct (stopwatch_measures redirect_known _ 30 Hr Hk) as (_ & _ & _ & H & _).
  exact H.
Defined.

(** X8.  A submission sends at most one create-call, at most one contact
    update and at most one mark-processed call, in that order, and no
    other request: nothing is retried. *)
Theorem submission_sends_each_once p s srv b :
  let l := log_of (run (handleSubmit p s) srv s b) in
  calls_of l = List.filter is_create (calls_of l) ++ updates l ++ marks l
  /\ (length (List.filter is_create (calls_of l)) <= 1)%nat
  /\ (length (updates l) <= 1)%nat
  /\ (length (marks l) <= 1)%nat.
Proof.
  intros l. subst l. unfold updates, marks.
  destruct (blank (callerNumber s)) eqn:Hb.
  { rewrite SubmitFacts.submit_blank by done. cbn. repeat split; lia. }
  destruct (settle (srv (CallsCreate (callData_of p s) (create_params (callEventIdParam p)))))
    as [r|x] eqn:Hc.
  - destruct (SubmitFacts.submit_created p s srv b r Hb Hc) as [Hgood Hbad].
    destruct (notFound s && extraInfo s) eqn:Hw.
    + destruct (settle (srv (ContactsUpdate (p_contact_id r) (contactPatch_of s))))
        as [r'|x] eqn:Hu.
      * destruct Hgood as (_ & _ & ->); [eauto|].
        unfold owed_marks. repeat case_match; cbn; repeat split; lia.
      * destruct (Hbad x eq_refl eq_refl) as (_ & _ & ->). cbn. repeat split; lia.
    + destruct Hgood as (_ & _ & ->); [by left|].
      unfold owed_marks. repeat case_match; cbn; repeat split; lia.
  - destruct (SubmitFacts.submit_create_fails p s srv b x Hb Hc) as (-> & _).
    cbn. repeat split; lia.
Qed.

(** X9.  When the create-call request fails, nothing else is sent, the
    flow does not navigate, and one error toast shows the detail of the
    response when it has a truthy one and ['Failed to log call']
    otherwise; the browser state changes only if the answer was a 401. *)
Theorem create_failure_is_reported p s srv b x :
  blank (callerNumber s) = false ->
  settle (srv (CallsCreate (callData_of p s) (create_params (callEventIdParam p))))
  = Throw x ->
  let create := CallsCreate (callData_of p s) (create_params (callEventIdParam p)) in
  let r := run (handleSubmit p s) srv s b in
  calls_of (log_of r) = [create]
  /\ navigations (log_of r) = []
  /\ toasts (log_of r)
     = [(Error, if truthy (detail_of x) then detail_of x
                else JStr (str "Failed to log call"))]
  /\ env_of r = (if unauthorized (srv create) then teardown b else b).
Proof.
  intros Hb Hc create r. subst create r.
  destruct (SubmitFacts.submit_create_fails p s srv b x Hb Hc) as (H1 & H2 & H3).
  repeat split; try done.
  unfold handleSubmit. rewrite Hb. exec.
  pose proof (settle_effect
                (srv (CallsCreate (callData_of p s) (create_params (callEventIdParam p)))) b)
    as He.
  rewrite Hc in He. rewrite Hc. exec. exact He.
Qed.

Lemma create_failure_is_reported_witness :
  toasts (log_of (run (handleSubmit redirect_known known_caller) srv_unauthorized
                    known_caller signed_in))
  = [(Error, JStr (str "Not authenticated"))]
  /\ href (env_of (run (handleSubmit redirect_known known_caller) srv_unauthorized
                     known_caller signed_in)) = str "/login".
Proof.
  assert (Hb : blank (callerNumber known_caller) = false) by (vm_compute; reflexivity).
  assert (Hc : settle (srv_unauthorized
                         (CallsCreate (callData_of redirect_known known_caller)
                            (create_params (callEventIdParam redirect_known))))
               = Throw (AxiosError {| err_status := Some 401;
                                      err_detail := JStr (str "Not authenticated") |}))
    by (vm_compute; reflexivity).
  destruct (create_failure_is_reported redirect_known known_caller srv_unauthorized
              signed_in _ Hb Hc) as (_ & _ & Ht & He).
  split; [exact Ht|]. rewrite He. vm_compute. reflexivity.
Defined.


(** X19.  A redirected call from a known contact, end to end.  Entered
    with a phone number, a contact and an event id, the contact being
    fetched with a truthy id: after [n] seconds on the stopwatch and a
    stop, a submission whose create-call succeeds sends exactly the
    create-call -- for the trimmed number, [n] seconds, that contact and
    that event -- then the mark-processed call for the event, reports
    success and navigates to the call list. *)
Theorem redirected_call_end_to_end p phone cid ev srv0 b0 response n srv b r :
  phoneParam p = Some phone -> blank phone = false ->
  contactIdParam p = Some cid -> cid <> [] ->
  callEventIdParam p = Some ev -> ev <> [] ->
  settle (srv0 (ContactsGetById cid)) = Ok response ->
  truthy (p_id response) = true ->
  let s := toggleTimer (ticks n (page_of (run (initFromParams p) srv0 initial b0))) in
  settle (srv (CallsCreate (callData_of p s) (Some ev))) = Ok r ->
  let l := log_of (run (handleSubmit p s) srv s b) in
  calls_of l = [CallsCreate (callData_of p s) (Some ev); FreepbxMarkProcessed ev]
  /\ caller_number (callData_of p s) = trim phone
  /\ cd_duration (callData_of p s) = JNum (Z.of_nat n)
  /\ contact_id (callData_of p s) = p_id response
  /\ toasts l = [(Success, JStr (str "Call logged successfully!"))]
  /\ navigations l = [str "/calls"].
Proof.
  intros Hp Hblank Hcid Hcne Hev Hevne Hfetch Hid s.
  assert (Hphone : nonempty (Some phone) = true).
  { destruct phone; [|done]. discriminate. }
  assert (Hc : nonempty (Some cid) = true) by (by destruct cid).
  assert (He : nonempty (Some ev) = true) by (by destruct ev).
  set (s0 := page_of (run (initFromParams p) srv0 initial b0)) in *.
  assert (Hs0 : s0 = setTimerRunning true
                  (setContactFound (Some true)
                     (setExistingContact
                        (Some {| c_id := p_id response; c_name := p_name response |})
                        (setIsFromFreePBX true (setCallerNumber phone initial))))).
  { subst s0. rewrite init_page, Hp, Hphone, Hcid, Hc, Hfetch. done. }
  assert (Hrun : timerRunning s0 = true) by (by rewrite Hs0).
  destruct (ticks_running n s0 Hrun) as (Hrn & Hsn).
  assert (Hkeep : forall m t, timerRunning t = true ->
            callerNumber (ticks m t) = callerNumber t
            /\ existingContact (ticks m t) = existingContact t
            /\ contactFound (ticks m t) = contactFound t).
  { induction m as [|m IH]; intros t Ht; cbn [ticks]; [done|].
    assert (Ht' : timerRunning (tick t) = true)
      by (unfold tick; rewrite Ht; by destruct t).
    destruct (IH _ Ht') as (H1 & H2 & H3). rewrite H1, H2, H3.
    unfold tick. rewrite Ht. by destruct t. }
  destruct (Hkeep n s0 Hrun) as (Hcn & Hec & Hcf).
  assert (Hstop : callerNumber s = phone
                  /\ existingContact s
                     = Some {| c_id := p_id response; c_name := p_name response |}
                  /\ contactFound s = Some true
                  /\ timerSeconds s = Z.of_nat n
                  /\ duration s = toString (Z.of_nat n)).
  { subst s. unfold toggleTimer. rewrite Hrn.
    assert (Hz : timerSeconds (ticks n s0) = Z.of_nat n)
      by (rewrite Hsn, Hs0; cbn; lia).
    destruct (ticks n s0) eqn:Et; cbn in *. subst. rewrite Hs0. done. }
  destruct Hstop as (H1 & H2 & H3 & H4 & H5).
  intros Hcreate l. subst l.
  assert (Hb : blank (callerNumber s) = false) by (by rewrite H1).
  assert (Hparams : create_params (callEventIdParam p) = Some ev).
  { unfold create_params. by rewrite Hev, He. }
  rewrite <- Hparams in Hcreate.
  destruct (SubmitFacts.submit_created p s srv b r Hb Hcreate) as [Hgood _].
  assert (Hnf : notFound s = false) by (unfold notFound; by rewrite H3).
  rewrite Hnf in Hgood. cbn [andb] in Hgood.
  destruct Hgood as (Hn & Ht & Hl); [by left|].
  rewrite Hl, Hparams. unfold owed_marks. rewrite Hev, He. cbn [app].
  repeat split; try done.
  - cbn [callData_of caller_number]. by rewrite H1.
  - rewrite SubmitFacts.callData_duration, H4, H5.
    rewrite parseInt_toString by lia.
    by destruct (Z.eqb_spec (Z.of_nat n) 0) as [->|].
  - cbn [callData_of contact_id]. unfold existingContact_id, js_or.
    rewrite H2. cbn [c_id]. rewrite Hid. by rewrite Hid.
Qed.

Lemma redirected_call_end_to_end_witness :
  calls_of (log_of (run (handleSubmit redirect_known known_caller) srv_contact_42
                      known_caller signed_in))
  = [CallsCreate (callData_of redirect_known known_caller) (Some (str "900"));
     FreepbxMarkProcessed (str "900")].
Proof.
  assert (Hb : blank (str "+15559876543") = false) by (vm_compute; reflexivity).
  assert (Hc : settle (srv_contact_42
                         (CallsCreate (callData_of redirect_known known_caller)
                            (Some (str "900")))) = Ok contact_42)
    by (vm_compute; reflexivity).
  exact (proj1 (redirected_call_end_to_end redirect_known (str "+15559876543")
                  (str "42") (str "900") srv_contact_42 signed_in contact_42 30
                  srv_contact_42 signed_in contact_42
                  eq_refl Hb eq_refl ltac:(discriminate) eq_refl ltac:(discriminate)
                  eq_refl eq_refl Hc)).
Defined.

End CallLogFacts.

(** ** The gateway after a 401 and the list filters *)

Module GatewayMore.
Import JS Api Eff Http Obs Exec Scenario Scenario2 CallsList CallsListUI.

Lemma teardown_lookup b k :
  getItem (teardown b) k
  = if bool_decide (k = "token"%string \/ k = "user"%string) then None
    else getItem b k.
Proof.
  unfold getItem, teardown, set_href, removeItem. cbn.
  case_bool_decide as Hk.
  - destruct Hk as [->| ->].
    + rewrite lookup_delete_ne by done. apply lookup_delete_eq.
    + apply lookup_delete_eq.
  - assert (Ht : "token"%string <> k) by (intros <-; apply Hk; by left).
    assert (Hu : "user"%string <> k) by (intros <-; apply Hk; by right).
    by rewrite !lookup_delete_ne by done.
Qed.

(** X10.  What a 401 leaves behind.  The teardown removes the token and
    the user and nothing else from storage, and doing it twice changes
    nothing more; and the request that follows a 401 through the client,
    whatever its endpoint, carries no credential. *)
Theorem after_unauthorized {S} (c1 c2 : call) (srv : call -> wire) (st : S)
    (b : browser) :
  unauthorized (srv c1) = true ->
  let b' := env_of (run (api c1) srv st b) in
  b' = teardown b
  /\ (forall k, k <> "token"%string -> k <> "user"%string ->
        getItem b' k = getItem b k)
  /\ teardown b' = b'
  /\ exists headers,
       log_of (run (api c2) srv st b') = [Sent Axios c2 headers]
       /\ headers !! "Authorization"%string = None.
Proof.
  intros H401 b'.
  assert (Hb : b' = teardown b).
  { subst b'. exec.
    pose proof (settle_effect (srv c1) b) as He. rewrite H401 in He.
    destruct (settle (srv c1)); exec; exact He. }
  rewrite Hb. split; [done|]. split; [|split].
  - intros k Ht Hu. rewrite teardown_lookup.
    rewrite bool_decide_eq_false_2; [done | by intros [?|?]].
  - unfold teardown at 1. unfold set_href, removeItem. cbn.
    unfold teardown, set_href, removeItem. cbn. f_equal.
    apply map_eq. intros k. rewrite !lookup_delete.
    by repeat (destruct (decide _)).
  - exists (request_interceptor (teardown b) default_headers). split.
    + exec. by destruct (settle (srv c2)).
    + rewrite GatewayFacts.authorization_header, teardown_lookup.
      by rewrite bool_decide_eq_true_2 by (by left).
Qed.

Lemma after_unauthorized_witness :
  getItem (env_of (run (api (ContactsGetById (str "42"))) srv_unauthorized
                     CallLog.initial signed_in_with_theme)) "theme"
  = Some (str "dark").
Proof.
  destruct (after_unauthorized (ContactsGetById (str "42"))
              (ContactsGetById (str "42")) srv_unauthorized CallLog.initial
              signed_in_with_theme eq_refl) as (_ & Hkeep & _).
  rewrite Hkeep by discriminate. vm_compute. reflexivity.
Defined.

(** X12.  The filters of the call list.  The export is asked with the
    parameters of the list request minus the search text; both hold only
    non-empty values; the filters count as active exactly when the list
    request has a parameter; and clearing the filters empties both. *)
Theorem filters_as_parameters s :
  export_params s
  = List.filter (fun kv => negb (String.eqb kv.1 "search")) (fetch_params s)
  /\ (forall k v, (k, v) ∈ fetch_params s -> v <> [])
  /\ (hasActiveFilters s = true <-> fetch_params s <> [])
  /\ fetch_params (clearFilters s) = []
  /\ export_params (clearFilters s) = []
  /\ hasActiveFilters (clearFilters s) = false.
Proof.
  destruct s as [ex q t_ p_ st]. split; [|split; [|split; [|done]]].
  - unfold export_params, fetch_params, add_param. cbn.
    destruct q, t_, p_, st; reflexivity.
  - intros k v Hin. unfold fetch_params, add_param in Hin. cbn in Hin.
    destruct q, t_, p_, st; cbn in Hin;
      repeat (apply elem_of_cons in Hin as [Heq|Hin]; [by inversion Heq|]);
      by apply elem_of_nil in Hin.
  - unfold hasActiveFilters, fetch_params, add_param. cbn.
    destruct q, t_, p_, st; cbn; split; done.
Qed.

Lemma filters_as_parameters_witness :
  fetch_params searched_urgent
  = [("search"%string, str "smith"); ("priority"%string, str "urgent")]
  /\ export_params searched_urgent = [("priority"%string, str "urgent")].
Proof.
  destruct (filters_as_parameters searched_urgent) as (Hexp & _ & Hact & _).
  assert (Hne : fetch_params searched_urgent <> [])
    by (apply Hact; vm_compute; reflexivity).
  split; [vm_compute; reflexivity|]. rewrite Hexp. vm_compute. reflexivity.
Defined.

End GatewayMore.

(** ** Redirects, navigation links and signing out *)

Module SessionFacts.
Import JS Api Eff Http App Obs Exec Scenario Session.

Lemma route_cases path e :
  (path, e) ∈ AppRoutes ->
  e = Public LoginPage \/ e = Public RegisterPage
  \/ (exists pg, e = Protected None pg)
  \/ e = Protected (Some [str "admin"]) AdminPage
  \/ e = Redirect (str "/dashboard").
Proof.
  unfold AppRoutes. intros Hin.
  repeat (apply elem_of_cons in Hin as [Hin|Hin];
          [inversion Hin; subst; eauto 10 |]).
  by apply elem_of_nil in Hin.
Qed.

(** X13.  Redirects end.  Once the session check has finished, rendering
    any route of the table and following the redirects it issues reaches a
    page within two hops: without a user, the requested public page or
    the login page, outside the layout; with a user, a page inside the
    layout with that user's navigation. *)
Theorem redirects_end (a : auth) (path : jsstring) (e : element) :
  (path, e) ∈ AppRoutes ->
  loading a = false ->
  match current a with
  | None =>
      follow 2 a e = Bare LoginPage
      \/ (exists pg, e = Public pg /\ follow 2 a e = Bare pg)
  | Some u =>
      exists pg, follow 2 a e = InLayout (getNavItems (Some (role u))) pg
  end.
Proof.
  intros Hin Hload.
  assert (Hlogin : route_at (str "/login") = Some (Public LoginPage))
    by (vm_compute; reflexivity).
  assert (Hdash : route_at (str "/dashboard") = Some (Protected None DashboardPage))
    by (vm_compute; reflexivity).
  destruct (route_cases path e Hin) as [->|[->|[[pg ->]|[->| ->]]]];
    destruct (current a) as [u|] eqn:Hu;
    cbn [follow render]; unfold PublicRoute, ProtectedRoute, Layout, includes;
    rewrite ?Hload, ?Hu; cbn [fmap option_fmap option_map];
    rewrite ?Hdash, ?Hlogin; cbn [follow render];
    unfold PublicRoute, ProtectedRoute, Layout; rewrite ?Hload, ?Hu;
    cbn [fmap option_fmap option_map]; eauto.
  - case_bool_decide; cbn [negb]; rewrite ?Hdash; cbn [follow render];
      unfold ProtectedRoute, Layout; rewrite ?Hload, ?Hu; cbn; eauto.
  - rewrite ?Hlogin. cbn [follow render]. unfold PublicRoute.
    rewrite Hload, Hu. by left.
Qed.


Lemma redirects_end_witness :
  follow 2 nobody (Redirect (str "/dashboard")) = Bare LoginPage
  /\ exists pg, follow 2 agent_session (Protected (Some [str "admin"]) AdminPage)
                = InLayout (getNavItems (Some (str "agent"))) pg.
Proof.
  assert (H1 : (str "/", Redirect (str "/dashboard")) ∈ AppRoutes).
  { unfold AppRoutes. do 9 apply list_elem_of_further. apply list_elem_of_here. }
  assert (H2 : (str "/admin", Protected (Some [str "admin"]) AdminPage) ∈ AppRoutes).
  { unfold AppRoutes. do 7 apply list_elem_of_further. apply list_elem_of_here. }
  split.
  - destruct (redirects_end nobody _ _ H1 eq_refl) as [H|(pg & Hpg & _)];
      [exact H | discriminate].
  - exact (redirects_end agent_session _ _ H2 eq_refl).
Defined.

(** X14.  No dead link.  Once the session check has finished, every item
    of a user's navigation names a route of the table that shows its page
    to that user, inside the layout, without redirecting. *)
Theorem navigation_links_are_open (a : auth) (u : user) (item : navItem) :
  loading a = false ->
  current a = Some u ->
  item ∈ getNavItems (Some (role u)) ->
  exists e pg,
    route_at (path item) = Some e
    /\ render a e = InLayout (getNavItems (Some (role u))) pg.
Proof.
  intros Hload Hu Hin. unfold getNavItems in Hin.
  assert (Hopen : forall pg,
            render a (Protected None pg) = InLayout (getNavItems (Some (role u))) pg).
  { intros pg. cbn. unfold ProtectedRoute, Layout. by rewrite Hload, Hu. }
  case_bool_decide as Hr.
  - injection Hr as Hr.
    assert (Hadmin : render a (Protected (Some [str "admin"]) AdminPage)
                     = InLayout (getNavItems (Some (role u))) AdminPage).
    { cbn. unfold ProtectedRoute, Layout, includes. rewrite Hload, Hu.
      rewrite bool_decide_eq_true_2 by (rewrite Hr; apply list_elem_of_here).
      done. }
    cbn in Hin.
    repeat (apply elem_of_cons in Hin as [->|Hin];
            [eexists _, _; split; [vm_compute; reflexivity|];
             first [apply Hopen | apply Hadmin] |]).
    by apply elem_of_nil in Hin.
  - repeat (apply elem_of_cons in Hin as [->|Hin];
            [eexists _, _; split; [vm_compute; reflexivity | apply Hopen] |]).
    by apply elem_of_nil in Hin.
Qed.

Lemma navigation_links_are_open_witness :
  exists e pg,
    route_at (str "/admin") = Some e
    /\ render admin_session e = InLayout (getNavItems (Some (str "admin"))) pg.
Proof.
  apply (navigation_links_are_open admin_session
           {| role := str "admin"; user_name := str "Bo" |}
           {| path := str "/admin"; label := str "Admin" |} eq_refl eq_refl).
  vm_compute. do 4 apply list_elem_of_further. apply list_elem_of_here.
Defined.

(** X15.  Signing out.  [handleLogout] removes the token and the user
    from storage (and nothing else), forgets the current user, sends no
    request and navigates to [/login]; storage is then as after a 401,
    the next request through the client carries no credential, and, the
    session check being over, every protected route redirects to the
    login page. *)
Theorem logout_clears_session (a : auth) (srv : call -> wire) (b : browser) :
  let r := run handleLogout srv a b in
  current (page_of r) = None
  /\ loading (page_of r) = loading a
  /\ localStorage (env_of r) = localStorage (teardown b)
  /\ href (env_of r) = href b
  /\ (forall k, k <> "token"%string -> k <> "user"%string ->
        getItem (env_of r) k = getItem b k)
  /\ calls_of (log_of r) = []
  /\ navigations (log_of r) = [str "/login"]
  /\ request_interceptor (env_of r) default_headers !! "Authorization"%string = None
  /\ (loading a = false ->
      forall roles pg,
        render (page_of r) (Protected roles pg) = NavigateTo (str "/login")).
Proof.
  intros r. subst r. unfold handleLogout, logout, storage. exec.
  unfold page_of, env_of, log_of. cbn.
  assert (Hget : forall k,
            delete "user"%string (delete "token"%string (localStorage b)) !! k
            = if bool_decide (k = "token"%string \/ k = "user"%string) then None
              else localStorage b !! k).
  { intros k. apply (GatewayMore.teardown_lookup b k). }
  repeat split; try done.
  - intros k Ht Hu. unfold getItem. cbn. rewrite Hget.
    rewrite bool_decide_eq_false_2; [done | by intros [?|?]].
  - rewrite GatewayFacts.authorization_header. unfold getItem. cbn.
    rewrite Hget. by rewrite bool_decide_eq_true_2 by (by left).
  - intros Hload roles pg. unfold ProtectedRoute. cbn. by rewrite Hload.
Qed.

Lemma logout_clears_session_witness :
  render (page_of (run handleLogout srv_ok admin_session signed_in))
    (Protected (Some [str "admin"]) AdminPage)
  = NavigateTo (str "/login").
Proof.
  destruct (logout_clears_session admin_session srv_ok signed_in)
    as (_ & _ & _ & _ & _ & _ & _ & _ & H).
  exact (H eq_refl (Some [str "admin"]) AdminPage).
Defined.

End SessionFacts.

(** ** The reset dialog and the tags of a contact *)

Module AdminMore.
Import JS Api Eff Http Admin Obs Exec Scenario.

(** X16.  The reset dialog closes only on success.  With a user selected
    and a password of at least 6 code units, a successful request closes
    the dialog and reports success; a failed one leaves the dialog open
    with the password as typed and shows the detail of the response when
    it has a truthy one, ['Failed to reset password'] otherwise.  Either
    way the submitting flag is down again. *)
Theorem reset_dialog_outcomes s u srv b :
  selectedUser s = Some u ->
  isSubmitting s = false ->
  (6 <= length (newPassword s))%nat ->
  let r := run (handleResetPassword s) srv s b in
  match settle (srv (AdminResetPassword (u_id u) (newPassword s))) with
  | Ok _ =>
      page_of r = setIsResetPasswordOpen false s
      /\ toasts (log_of r) = [(Success, JStr (str "Password reset successfully"))]
  | Throw x =>
      page_of r = s
      /\ toasts (log_of r)
         = [(Error, if truthy (detail_of x) then detail_of x
                    else JStr (str "Failed to reset password"))]
  end.
Proof.
  intros Hu Hsub Hlen r. subst r.
  unfold handleResetPassword, selectedUser_id. rewrite Hu.
  destruct (Nat.ltb_spec (length (newPassword s)) 6); [lia|]. exec.
  destruct (settle (srv (AdminResetPassword (u_id u) (newPassword s)))); exec;
    destruct s; cbn in *; subst; done.
Qed.

Lemma reset_dialog_outcomes_witness :
  page_of (run (handleResetPassword (reset_typed (str "secret1"))) srv_down
             (reset_typed (str "secret1")) signed_in)
  = reset_typed (str "secret1").
Proof.
  pose proof (reset_dialog_outcomes (reset_typed (str "secret1")) some_user srv_down
                signed_in eq_refl eq_refl ltac:(cbn; lia)) as H.
  cbn in H. exact (proj1 H).
Defined.

End AdminMore.

Module TagsFacts.
Import JS Tags JSFacts.

Lemma split_comma_nonempty s : split_comma s <> [].
Proof.
  induction s as [|c r IH]; cbn; [done|].
  destruct (c =? 44); [done|]. by destruct (split_comma r).
Qed.

Lemma split_comma_free t : 44 ∉ t -> split_comma t = [t].
Proof.
  induction t as [|c r IH]; intros Hc; cbn; [done|].
  apply not_elem_of_cons in Hc as [Hne Hr].
  destruct (N.eqb_spec c 44); [congruence|]. by rewrite IH.
Qed.

Lemma split_comma_app t rest :
  44 ∉ t -> split_comma (t ++ 44 :: rest) = t :: split_comma rest.
Proof.
  induction t as [|c r IH]; intros Hc; cbn; [done|].
  apply not_elem_of_cons in Hc as [Hne Hr].
  destruct (N.eqb_spec c 44); [congruence|]. by rewrite IH.
Qed.

(** A space in front of the text does not change the trimmed pieces. *)
Lemma trimmed_pieces_space s :
  map trim (split_comma (32 :: s)) = map trim (split_comma s).
Proof.
  cbn [split_comma]. change (32 =? 44) with false. cbv iota.
  pose proof (split_comma_nonempty s) as Hne.
  destruct (split_comma s) as [|h t]; [done|]. reflexivity.
Qed.

Lemma clean_pieces l :
  Forall clean l -> l <> [] ->
  List.filter (fun t => truthy (JStr t)) (map trim (split_comma (join (str ", ") l))) = l.
Proof.
  induction l as [|t r IH]; intros Hl Hne; [done|].
  apply Forall_cons in Hl as [(Ht & Hc & Htrim) Hr].
  destruct r as [|t' r'].
  - cbn [join]. rewrite split_comma_free by done. cbn. rewrite Htrim.
    by destruct t.
  - change (join (str ", ") (t :: t' :: r'))
      with (t ++ 44 :: 32 :: join (str ", ") (t' :: r')).
    rewrite split_comma_app by done. cbn [map].
    rewrite trimmed_pieces_space. cbn [List.filter]. rewrite Htrim.
    destruct t; [done|]. cbn [truthy]. f_equal. by apply IH.
Qed.

Lemma parse_field_clean (l : list jsstring) :
  Forall clean l -> parseTags (tagsField (Some l)) = l.
Proof.
  intros Hl. unfold tagsField, js_or. cbn [truthy].
  destruct l as [|t r]; [done|].
  assert (Hne : join (str ", ") (t :: r) <> []).
  { apply Forall_cons in Hl as [(Ht & _) _]. destruct r; cbn; by destruct t. }
  destruct (join (str ", ") (t :: r)) as [|c j] eqn:Hj; [done|].
  unfold parseTags. cbn [nonempty of_opt truthy]. rewrite <- Hj.
  by apply clean_pieces.
Qed.

(** X17.  Opening the edit form and saving it unchanged keeps the tags:
    for tags that are not empty, hold no comma and no white space at
    either end, parsing the text that [openEditModal] puts in the form
    gives the tags back, in order; a contact without tags gives none. *)
Theorem tags_round_trip (l : list jsstring) :
  Forall clean l ->
  parseTags (tagsField (Some l)) = l
  /\ parseTags (tagsField None) = [].
Proof. intros Hl. split; [by apply parse_field_clean | done]. Qed.

Lemma tags_round_trip_witness :
  parseTags (tagsField (Some [str "vip"; str "billing dept"]))
  = [str "vip"; str "billing dept"].
Proof.
  apply (tags_round_trip [str "vip"; str "billing dept"]).
  repeat constructor; try discriminate;
    try (vm_compute; intros Hin;
         repeat (apply elem_of_cons in Hin as [Hin|Hin]; [discriminate|]);
         by apply elem_of_nil in Hin).
Defined.

(** *** What [trim] leaves *)

Lemma drop_white_suffix s : exists pre, s = pre ++ drop_white s.
Proof.
  induction s as [|c r [pre IH]]; [by exists []|]. cbn.
  destruct (is_white c); [|by exists []].
  exists (c :: pre). cbn. by rewrite <- IH.
Qed.

Lemma drop_white_fixed s :
  match s with c :: _ => is_white c = false | [] => True end ->
  drop_white s = s.
Proof. destruct s as [|c r]; [done|]. cbn. by intros ->. Qed.

Lemma drop_white_idem s : drop_white (drop_white s) = drop_white s.
Proof.
  apply drop_white_fixed.
  destruct (drop_white_head s) as [->|(c & r & -> & Hc)]; done.
Qed.

Lemma trim_idem s : trim (trim s) = trim s.
Proof.
  unfold trim.
  set (a := drop_white s). set (bb := drop_white (reverse a)).
  assert (Hfix : drop_white (reverse bb) = reverse bb).
  { apply drop_white_fixed.
    destruct (reverse bb) as [|c r] eqn:Hrev; [done|].
    destruct (drop_white_suffix (reverse a)) as [pre Hpre]. fold bb in Hpre.
    apply (f_equal reverse) in Hpre.
    rewrite reverse_involutive, reverse_app, Hrev in Hpre.
    destruct (drop_white_head s) as [Hnil|(c' & r' & Ha & Hc')]; fold a in Hnil || fold a in Ha.
    - rewrite Hnil in Hpre. discriminate.
    - rewrite Ha in Hpre. injection Hpre as -> _. done. }
  rewrite Hfix, reverse_involutive. unfold bb. by rewrite drop_white_idem.
Qed.

Lemma trim_subset s c : c ∈ trim s -> c ∈ s.
Proof.
  unfold trim. intros Hin. apply (proj1 (elem_of_reverse _ _)) in Hin.
  destruct (drop_white_suffix (reverse (drop_white s))) as [pre Hpre].
  assert (Hin2 : c ∈ reverse (drop_white s)).
  { rewrite Hpre. apply elem_of_app. by right. }
  apply (proj1 (elem_of_reverse _ _)) in Hin2.
  destruct (drop_white_suffix s) as [pre' Hpre'].
  rewrite Hpre'. apply elem_of_app. by right.
Qed.

Lemma split_comma_pieces s t : t ∈ split_comma s -> 44 ∉ t.
Proof.
  revert t. induction s as [|c r IH]; intros t Hin; cbn in Hin.
  - apply list_elem_of_singleton in Hin as ->. apply not_elem_of_nil.
  - destruct (N.eqb_spec c 44) as [->|Hne].
    + apply elem_of_cons in Hin as [->|Hin]; [apply not_elem_of_nil | by apply IH].
    + destruct (split_comma r) as [|h tl] eqn:Hs.
      * apply list_elem_of_singleton in Hin as ->.
        apply not_elem_of_cons. split; [done | apply not_elem_of_nil].
      * apply elem_of_cons in Hin as [->|Hin].
        -- apply not_elem_of_cons. split; [done|]. apply IH, list_elem_of_here.
        -- apply IH. by apply list_elem_of_further.
Qed.

(** X18.  What is sent as tags is always well formed: every tag that
    [handleCreate] and [handleUpdate] send is non-empty, holds no comma
    and has no white space at either end, whatever was typed; so the form
    text rebuilt from those tags parses to the same tags. *)
Theorem parsed_tags_are_clean (s : jsstring) :
  Forall clean (parseTags s)
  /\ parseTags (tagsField (Some (parseTags s))) = parseTags s.
Proof.
  assert (Hclean : Forall clean (parseTags s)).
  { unfold parseTags. destruct (nonempty (Some s)); [|constructor].
    apply Forall_forall. intros t Hin. apply list_elem_of_In in Hin.
    apply filter_In in Hin as [Hin Ht]. apply in_map_iff in Hin as (piece & <- & Hp).
    apply list_elem_of_In in Hp. repeat split.
    - by destruct (trim piece).
    - intros Hc. apply trim_subset in Hc. by apply (split_comma_pieces s piece).
    - apply trim_idem. }
  split; [done | by apply parse_field_clean].
Qed.

End TagsFacts.
